(** * TrueBPL duplicate detection system: data model and operations

    A shallow embedding of the parts of the repository that carry decision
    logic:

    - the relational schema of [supabase/migrations] (tables, CHECK and
      UNIQUE constraints),
    - [handleSubmit] of [BeneficiaryRegistration.tsx],
    - [handleReviewAlert] and [loadData] of [MonitoringDashboard.tsx],
    - the configuration constants quoted in [README.md],
    - the verification and duplicate-rule engine, whose Python sources
      ([backend/main.py], [backend/duplicate_detection.py]) are not part of
      the source tree and which is therefore modelled from the
      specification.

    Tables are lists of rows in insertion order.  Identifiers produced by
    [gen_random_uuid()] are natural numbers, [timestamptz] values are
    integers (seconds), [numeric] values are rationals, [text] values are
    strings, and a nullable column is an [option]. *)

From Stdlib Require Import List String Ascii Bool Arith ZArith QArith Lia.
From Stdlib Require Import Sorting.Permutation Sorting.Sorted.
Import ListNotations.

Close Scope Q_scope.
Local Open Scope string_scope.
Local Open Scope list_scope.

(** ** The relational schema *)

Module Schema.

Definition uuid := nat.
Definition timestamptz := Z.

(** [col IN (v1, ..., vn)] inside a CHECK constraint.  A CHECK constraint is
    satisfied when its expression is true or NULL, so a NULL column passes. *)
Definition sql_in (v : option string) (allowed : list string) : bool :=
  match v with
  | None => true
  | Some s => existsb (String.eqb s) allowed
  end.

Inductive pg_error : Type :=
  | unique_violation (constraint : string)
  | check_violation (constraint : string).

(** [gen_random_uuid()]: an identifier that no row of the table carries. *)
Definition fresh_uuid (used : list uuid) : uuid :=
  S (fold_right Nat.max 0 used).

Module beneficiaries.

Record row : Type := mk {
  id : uuid;
  card_number : string;            (* text UNIQUE NOT NULL *)
  name : string;                   (* text NOT NULL *)
  phone : option string;
  address : option string;
  face_image_url : option string;
  face_embedding : option string;
  status : option string;          (* DEFAULT 'active' CHECK (...) *)
  created_at : timestamptz;
  updated_at : timestamptz
}.

Definition status_values : list string := ["active"; "suspended"; "blocked"].

Definition status_check (s : option string) : bool := sql_in s status_values.

(** The UNIQUE constraint on [card_number]. *)
Definition card_number_taken (tbl : list row) (card : string) : bool :=
  existsb (fun r => String.eqb (card_number r) card) tbl.

End beneficiaries.

Module transactions.

Record row : Type := mk {
  id : uuid;
  beneficiary_id : option uuid;
  card_number : string;            (* text NOT NULL *)
  shop_id : uuid;                  (* NOT NULL *)
  cycle_id : option uuid;
  verification_type : option string;
  face_match_confidence : option Q;
  captured_image_url : option string;
  status : option string;          (* DEFAULT 'success' CHECK (...) *)
  operator_id : option string;
  notes : option string;
  created_at : timestamptz
}.

Definition verification_type_values : list string :=
  ["face"; "manual"; "override"].

Definition status_values : list string :=
  ["success"; "failed"; "flagged"; "pending"].

Definition verification_type_check (v : option string) : bool :=
  sql_in v verification_type_values.

(** [CHECK (face_match_confidence >= 0 AND face_match_confidence <= 100)] *)
Definition face_match_confidence_check (c : option Q) : bool :=
  match c with
  | None => true
  | Some q => Qle_bool 0%Q q && Qle_bool q 100%Q
  end.

Definition status_check (s : option string) : bool := sql_in s status_values.

(** All CHECK constraints of the table, on one row. *)
Definition checks (r : row) : bool :=
  verification_type_check (verification_type r)
  && face_match_confidence_check (face_match_confidence r)
  && status_check (status r).

End transactions.

Module duplicate_alerts.

Record row : Type := mk {
  id : uuid;
  alert_type : string;             (* text NOT NULL CHECK (...) *)
  beneficiary_id : option uuid;
  card_number : string;
  transaction_id : option uuid;
  previous_transaction_id : option uuid;
  shop_id : uuid;
  description : string;
  severity : option string;        (* DEFAULT 'medium' CHECK (...) *)
  status : option string;          (* DEFAULT 'pending' CHECK (...) *)
  reviewed_by : option string;
  reviewed_at : option timestamptz;
  created_at : timestamptz
}.

Definition alert_type_values : list string :=
  ["duplicate_location"; "different_person"; "multiple_attempts";
   "suspicious_timing"].

Definition severity_values : list string :=
  ["low"; "medium"; "high"; "critical"].

Definition status_values : list string :=
  ["pending"; "reviewed"; "resolved"; "dismissed"].

Definition status_check (s : option string) : bool := sql_in s status_values.

End duplicate_alerts.

End Schema.

(** The status union of the [Transaction] interface of the type
    declarations:
    ['success' | 'failed' | 'flagged' | 'pending']. *)
Module Types.

Inductive TransactionStatus : Type :=
  | success
  | failed
  | flagged
  | pending.

Definition TransactionStatus_text (s : TransactionStatus) : string :=
  match s with
  | success => "success"
  | failed => "failed"
  | flagged => "flagged"
  | pending => "pending"
  end.

End Types.

(** ** Truthiness of JavaScript strings *)

(** [!s] for a string [s]: only the empty string is falsy. *)
Definition js_not (s : string) : bool :=
  match s with
  | EmptyString => true
  | String _ _ => false
  end.

(** [!s] for [s : string | null]. *)
Definition js_not_nullable (s : option string) : bool :=
  match s with
  | None => true
  | Some v => js_not v
  end.

(** [a || b] on strings. *)
Definition js_or_else (a b : string) : string :=
  if js_not a then b else a.

(** ** BeneficiaryRegistration.tsx *)

Module Registration.

Import Schema.

Record FormData : Type := mkFormData {
  card_number : string;
  name : string;
  phone : string;
  address : string
}.

Inductive MessageType : Type := success | error.

Record Message : Type := mkMessage {
  type : MessageType;
  text : string
}.

(** The [useState] cells of the component that [handleSubmit] reads or
    writes. *)
Record State : Type := mkState {
  formData : FormData;
  capturedImage : option string;
  loading : bool;
  message : option Message
}.

Definition setMessage (m : option Message) (st : State) : State :=
  mkState (formData st) (capturedImage st) (loading st) m.

Definition setLoading (b : bool) (st : State) : State :=
  mkState (formData st) (capturedImage st) b (message st).

Definition setFormData (f : FormData) (st : State) : State :=
  mkState f (capturedImage st) (loading st) (message st).

Definition setCapturedImage (i : option string) (st : State) : State :=
  mkState (formData st) i (loading st) (message st).

Definition emptyForm : FormData :=
  mkFormData EmptyString EmptyString EmptyString EmptyString.

(** The object literal [beneficiaryData] passed to [insert]. *)
Record BeneficiaryData : Type := mkData {
  d_form : FormData;
  d_face_image_url : string;
  d_face_embedding : string;
  d_status : string
}.

(** [capturedImage.substring(0, 100) + '...'] *)
Definition truncated_image (capturedImage : string) : string :=
  String.substring 0 100 capturedImage ++ "...".

Definition beneficiaryData (f : FormData) (capturedImage : string)
  : BeneficiaryData :=
  mkData f (truncated_image capturedImage) capturedImage "active".

(** [supabase.from('beneficiaries').select('id').eq('card_number', c)] *)
Definition select_id_by_card (tbl : list beneficiaries.row) (c : string)
  : list uuid :=
  map beneficiaries.id
      (filter (fun r => String.eqb (beneficiaries.card_number r) c) tbl).

(** [.maybeSingle()]: the row when there is exactly one, [null] when there
    is none; several rows are an error, whose [data] is [null] too. *)
Definition maybeSingle {A : Type} (rows : list A) : option A :=
  match rows with
  | [r] => Some r
  | _ => None
  end.

(** [supabase.from('beneficiaries').insert([d]).select()], as the table
    definition decides it: the CHECK on [status], then the UNIQUE index on
    [card_number]; [id], [created_at] and [updated_at] take their
    defaults. *)
Definition insert (now : timestamptz) (tbl : list beneficiaries.row)
    (d : BeneficiaryData) : pg_error + (list beneficiaries.row * beneficiaries.row) :=
  if negb (beneficiaries.status_check (Some (d_status d))) then
    inl (check_violation "beneficiaries_status_check")
  else if beneficiaries.card_number_taken tbl (card_number (d_form d)) then
    inl (unique_violation "beneficiaries_card_number_key")
  else
    let r := beneficiaries.mk
               (fresh_uuid (map beneficiaries.id tbl))
               (card_number (d_form d))
               (name (d_form d))
               (Some (phone (d_form d)))
               (Some (address (d_form d)))
               (Some (d_face_image_url d))
               (Some (d_face_embedding d))
               (Some (d_status d))
               now now in
    inr (tbl ++ [r], r).

Section HandleSubmit.

(** The text of [error.message] for a rejected insert, which the database
    client chooses. *)
Variable pg_message : pg_error -> string.

(** The clock of the database server. *)
Variable now : timestamptz.

(** What other clients do to the table between the moment the
    [existingCheck] query is answered and the moment the insert is
    executed: the two are separate requests, each awaited.  The identity
    when nobody else writes. *)
Variable concurrent : list beneficiaries.row -> list beneficiaries.row.

Definition handleSubmit (db : list beneficiaries.row) (st : State)
  : list beneficiaries.row * State :=
  let st0 := setMessage None st in
  if js_not_nullable (capturedImage st) then
    (db, setMessage
           (Some (mkMessage error "Please capture or upload a face image"))
           st0)
  else if js_not (card_number (formData st)) || js_not (name (formData st))
  then
    (db, setMessage
           (Some (mkMessage error "Card number and name are required"))
           st0)
  else
    let st1 := setLoading true st0 in
    match maybeSingle (select_id_by_card db (card_number (formData st))) with
    | Some _ =>
        (db, setLoading false
               (setMessage
                  (Some (mkMessage error "Card number already registered"))
                  st1))
    | None =>
        let img := match capturedImage st with
                   | Some i => i
                   | None => EmptyString
                   end in
        match insert now (concurrent db) (beneficiaryData (formData st) img) with
        | inr (db', _) =>
            (db', setLoading false
                    (setCapturedImage None
                       (setFormData emptyForm
                          (setMessage
                             (Some (mkMessage success
                                      "Beneficiary registered successfully!"))
                             st1))))
        | inl e =>
            (concurrent db,
             setLoading false
               (setMessage
                  (Some (mkMessage error
                           (js_or_else (pg_message e) "Registration failed")))
                  st1))
        end
    end.

End HandleSubmit.

(** The uniqueness invariant of the registry. *)
Definition unique_cards (tbl : list beneficiaries.row) : Prop :=
  NoDup (map beneficiaries.card_number tbl).

(** What the two validation guards decide. *)
Definition invalid (st : State) : Prop :=
  capturedImage st = None \/
  capturedImage st = Some EmptyString \/
  card_number (formData st) = EmptyString \/
  name (formData st) = EmptyString.

Definition valid (st : State) (img : string) : Prop :=
  capturedImage st = Some img /\ img <> EmptyString /\
  card_number (formData st) <> EmptyString /\
  name (formData st) <> EmptyString.

(** The registries that a sequence of submissions of the form builds, from
    the empty table the migration creates. *)
Inductive reachable (pg_message : pg_error -> string)
  : list beneficiaries.row -> Prop :=
  | reachable_empty : reachable pg_message []
  | reachable_submit : forall now db st,
      reachable pg_message db ->
      reachable pg_message
        (fst (handleSubmit pg_message now (fun t => t) db st)).

End Registration.

(** ** MonitoringDashboard.tsx *)

Module Monitoring.

Import Schema.

(** The [useState] cells of the dashboard. *)
Record State : Type := mkState {
  recentTransactions : list transactions.row;
  recentAlerts : list duplicate_alerts.row;
  loading : bool
}.

(** The two tables the dashboard talks to. *)
Record Database : Type := mkDatabase {
  db_transactions : list transactions.row;
  db_alerts : list duplicate_alerts.row
}.

(** What the two queries of [loadData] come back with: for each, the rows
    in [data], or [None] for the [data: null] of a query that failed; the
    whole is [None] when the request throws.  Which rows a query answers,
    and in which order among rows created at the same time, is for the
    database to say. *)
Definition Answers : Type :=
  option (option (list transactions.row)
          * option (list duplicate_alerts.row)).

(** [data || []] *)
Definition or_empty {A : Type} (data : option (list A)) : list A :=
  match data with
  | Some rows => rows
  | None => []
  end.

(** [loadData]: the answers are stored, an empty list standing for a
    missing answer; a thrown error is logged and leaves the lists; the
    loading state ends in every case.  The joins to [beneficiaries] and
    [ration_shops] only decorate the rows shown. *)
Definition loadData (answers : Answers) (st : State) : State :=
  match answers with
  | Some (transactions, alerts) =>
      mkState (or_empty transactions) (or_empty alerts) false
  | None => mkState (recentTransactions st) (recentAlerts st) false
  end.

(** The object passed to [.update(...)]:
    [{ status, reviewed_by: 'Admin', reviewed_at: new Date().toISOString() }]. *)
Definition review_patch (status : string) (now : timestamptz)
    (a : duplicate_alerts.row) : duplicate_alerts.row :=
  duplicate_alerts.mk
    (duplicate_alerts.id a)
    (duplicate_alerts.alert_type a)
    (duplicate_alerts.beneficiary_id a)
    (duplicate_alerts.card_number a)
    (duplicate_alerts.transaction_id a)
    (duplicate_alerts.previous_transaction_id a)
    (duplicate_alerts.shop_id a)
    (duplicate_alerts.description a)
    (duplicate_alerts.severity a)
    (Some status)
    (Some "Admin")
    (Some now)
    (duplicate_alerts.created_at a).

(** [supabase.from('duplicate_alerts').update(patch).eq('id', alertId)]:
    every row whose [id] is [alertId] is patched; the statement is refused as
    a whole, and the table left as it was, when the new [status] violates
    the CHECK constraint of the column.  Nothing else is tested: the
    statement has no condition on the row's present [status]. *)
Definition update_alert (tbl : list duplicate_alerts.row) (alertId : uuid)
    (status : string) (now : timestamptz) : list duplicate_alerts.row :=
  if duplicate_alerts.status_check (Some status) then
    map (fun a => if Nat.eqb (duplicate_alerts.id a) alertId
                  then review_patch status now a else a) tbl
  else tbl.

(** [handleReviewAlert(alertId, status)]: the update, whose outcome is not
    inspected, then [loadData()], whose queries come back with
    [refresh]. *)
Definition handleReviewAlert (now : timestamptz) (alertId : uuid)
    (status : string) (refresh : Answers) (db : Database) (st : State)
  : Database * State :=
  let db' := mkDatabase (db_transactions db)
                        (update_alert (db_alerts db) alertId status now) in
  (db', loadData refresh st).

(** The guard [alert.status === 'pending' && ...] around the Resolve and
    Dismiss buttons of an alert card. *)
Definition review_buttons_shown (a : duplicate_alerts.row) : bool :=
  match duplicate_alerts.status a with
  | Some s => String.eqb s "pending"
  | None => false
  end.

(** The two calls the buttons make. *)
Definition button_statuses : list string := ["resolved"; "dismissed"].

End Monitoring.

(** ** Configuration (the excerpt of [backend/config.py] in README.md) *)

Module Config.

(** [FACE_MATCH_THRESHOLD = 0.6  # Minimum confidence for face match] *)
Definition FACE_MATCH_THRESHOLD : Q := (6 # 10)%Q.

(** [DUPLICATE_TIME_WINDOW_HOURS = 24  # Time window for suspicious timing] *)
Definition DUPLICATE_TIME_WINDOW_HOURS : Z := 24%Z.

(** [MAX_TRANSACTIONS_PER_CYCLE = 1  # Max collections per cycle] *)
Definition MAX_TRANSACTIONS_PER_CYCLE : nat := 1.

End Config.

(** ** The verification and duplicate-detection engine *)

Module Engine.

Definition uuid := Schema.uuid.
Definition timestamp := Z.

(** *** Data model *)

(** The enumerations of the data model, as the spec lists them. *)
Inductive BeneficiaryStatus : Type := active | suspended | blocked.

(** Modelled from the spec: [backend/models.py] is not in the source tree.
    Here, the Beneficiary record of the Identity Registry. *)
Record Beneficiary : Type := mkBeneficiary {
  beneficiary_key : uuid;
  card_number : string;
  identity_name : string;
  reference_face_embedding : string;
  status : BeneficiaryStatus
}.

Inductive CycleStatus : Type := cycle_active | completed | cancelled.

(** Modelled from the spec: [backend/models.py] is not in the source tree.
    Here, the DistributionCycle record. *)
Record DistributionCycle : Type := mkCycle {
  cycle_key : uuid;
  start_date : timestamp;
  end_date : timestamp;
  cycle_status : CycleStatus
}.

Inductive TransactionStatus : Type := success | failed | flagged.

(** Modelled from the spec: [backend/models.py] is not in the source tree.
    Here, the Transaction record of the ledger. *)
Record Transaction : Type := mkTransaction {
  tx_id : uuid;
  beneficiary_id : option uuid;
  tx_card_number : string;
  shop_id : uuid;
  cycle_id : uuid;
  face_match_confidence : option Q;
  tx_status : TransactionStatus;
  created_at : timestamp
}.

Inductive AlertType : Type :=
  | duplicate_location
  | different_person
  | multiple_attempts
  | suspicious_timing.

Inductive Severity : Type := low | medium | high | critical.

Inductive AlertStatus : Type := pending | reviewed | resolved | dismissed.

(** Modelled from the spec: [backend/models.py] is not in the source tree.
    Here, an alert specification raised by the Duplicate
    Rule Evaluator (type, severity, description, conflicting transaction). *)
Record AlertSpec : Type := mkAlertSpec {
  alert_type : AlertType;
  severity : Severity;
  description : string;
  previous_transaction_id : option uuid
}.

(** Modelled from the spec: [backend/models.py] is not in the source tree.
    Here, a persisted DuplicateAlert, linked to its
    originating Transaction. *)
Record DuplicateAlert : Type := mkDuplicateAlert {
  alert_id : uuid;
  alert_spec : AlertSpec;
  transaction_id : uuid;
  alert_status : AlertStatus;
  reviewed_by : option string;
  reviewed_at : option timestamp
}.

(** Modelled from the spec: [backend/config.py] is not in the source tree.
    Here, the configuration surface (the README quotes three lines of the
    file, see [Config]). *)
Record Configuration : Type := mkConfiguration {
  FACE_MATCH_THRESHOLD : Q;
  DUPLICATE_TIME_WINDOW_HOURS : Z;
  MAX_TRANSACTIONS_PER_CYCLE : nat
}.

(** Modelled from the spec: [backend/config.py] is not in the source tree.
    Here, the defaults of the configuration surface
    (60.0, 24, 1). *)
Definition default_configuration : Configuration :=
  mkConfiguration 60%Q 24%Z 1.

Definition AlertType_eqb (a b : AlertType) : bool :=
  match a, b with
  | duplicate_location, duplicate_location
  | different_person, different_person
  | multiple_attempts, multiple_attempts
  | suspicious_timing, suspicious_timing => true
  | _, _ => false
  end.

Definition is_success (s : TransactionStatus) : bool :=
  match s with
  | success => true
  | _ => false
  end.

Definition option_uuid_eqb (a : option uuid) (b : uuid) : bool :=
  match a with
  | Some x => Nat.eqb x b
  | None => false
  end.

(** *** Identity Registry *)

(** Modelled from the spec: [backend/main.py] is not in the source tree.
    Here, [lookup], an exact match on the unique key. *)
Definition lookup (registry : list Beneficiary) (card : string)
  : option Beneficiary :=
  find (fun b => String.eqb (card_number b) card) registry.

(** *** Distribution cycles *)

Definition is_active (c : DistributionCycle) : bool :=
  match cycle_status c with
  | cycle_active => true
  | _ => false
  end.

(** Modelled from the spec: [backend/main.py] is not in the source tree.
    Here, the active cycle is resolved only when exactly
    one cycle is active (zero or several are a configuration error). *)
Definition resolve_active_cycle (cycles : list DistributionCycle)
  : option DistributionCycle :=
  match filter is_active cycles with
  | [c] => Some c
  | _ => None
  end.

(** *** Transaction Ledger *)

(** Insertion of a record into a sequence sorted by timestamp, after the
    records that are not later than it. *)
Fixpoint insert_asc (t : Transaction) (l : list Transaction)
  : list Transaction :=
  match l with
  | [] => [t]
  | u :: l' =>
      if (created_at t <? created_at u)%Z then t :: l
      else u :: insert_asc t l'
  end.

(** Chronological order, oldest first; records with equal timestamps keep
    the order in which they were appended. *)
Definition chronological (l : list Transaction) : list Transaction :=
  fold_right insert_asc [] l.

(** Modelled from the spec: [backend/main.py] is not in the source tree.
    Here, [append], which assigns the identifier and the
    timestamp. *)
Definition append (now : timestamp) (ledger : list Transaction)
    (beneficiary : option uuid) (card : string) (shop cycle : uuid)
    (confidence : option Q) (st : TransactionStatus)
  : list Transaction * Transaction :=
  let t := mkTransaction (Schema.fresh_uuid (map tx_id ledger))
                         beneficiary card shop cycle confidence st now in
  (ledger ++ [t], t).

(** Modelled from the spec: [backend/main.py] is not in the source tree.
    Here, [findByCardInCycle]. *)
Definition findByCardInCycle (ledger : list Transaction) (card : string)
    (cycle : uuid) : list Transaction :=
  chronological
    (filter (fun t => String.eqb (tx_card_number t) card
                      && Nat.eqb (cycle_id t) cycle) ledger).

(** Modelled from the spec: [backend/main.py] is not in the source tree.
    Here, [findByBeneficiaryInCycle]. *)
Definition findByBeneficiaryInCycle (ledger : list Transaction)
    (beneficiary cycle : uuid) : list Transaction :=
  chronological
    (filter (fun t => option_uuid_eqb (beneficiary_id t) beneficiary
                      && Nat.eqb (cycle_id t) cycle) ledger).

(** The record [t] with its status replaced. *)
Definition with_status (t : Transaction) (st : TransactionStatus)
  : Transaction :=
  mkTransaction (tx_id t) (beneficiary_id t) (tx_card_number t) (shop_id t)
    (cycle_id t) (face_match_confidence t) st (created_at t).

(** Modelled from the spec: [backend/main.py] is not in the source tree.
    Here, attaching the derived status to the record
    written for the current attempt (step RULES_EVALUATED). *)
Definition attach_status (ledger : list Transaction) (id : uuid)
    (st : TransactionStatus) : list Transaction :=
  map (fun t => if Nat.eqb (tx_id t) id then with_status t st else t) ledger.

(** *** Duplicate Rule Evaluator *)

Section Evaluator.

Variable cfg : Configuration.

(** Modelled from the spec: [backend/face_recognition_service.py] is not in the source tree.
    Here, [confidence >= THRESHOLD] accepts the face; a
    missing confidence (comparator failure) accepts nothing. *)
Definition face_accepted (confidence : option Q) : bool :=
  match confidence with
  | Some c => Qle_bool (FACE_MATCH_THRESHOLD cfg) c
  | None => false
  end.

(** Modelled from the spec: [backend/face_recognition_service.py] is not in the source tree.
    Here, the face is rejected when a confidence was
    produced and it is below the threshold. *)
Definition face_rejected (confidence : option Q) : bool :=
  match confidence with
  | Some c => negb (Qle_bool (FACE_MATCH_THRESHOLD cfg) c)
  | None => false
  end.

(** Modelled from the spec: [backend/duplicate_detection.py] is not in the source tree.
    Here, the just-written record is excluded from the
    comparison sets. *)
Definition excluding (cur : Transaction) (l : list Transaction)
  : list Transaction :=
  filter (fun t => negb (Nat.eqb (tx_id t) (tx_id cur))) l.

(** The best element of a sequence for a preference [better]. *)
Definition pick (better : Transaction -> Transaction -> bool)
    (l : list Transaction) : option Transaction :=
  fold_left (fun best t =>
               match best with
               | None => Some t
               | Some b => if better t b then Some t else Some b
               end) l None.

(** The most recent record; among equal timestamps, the last appended. *)
Definition latest : list Transaction -> option Transaction :=
  pick (fun t b => (created_at b <=? created_at t)%Z).

(** The earliest record; among equal timestamps, the first appended. *)
Definition earliest : list Transaction -> option Transaction :=
  pick (fun t b => (created_at t <? created_at b)%Z).

(** Distance in time between two records, in seconds. *)
Definition distance (cur t : Transaction) : Z :=
  Z.abs (created_at cur - created_at t).

(** The record nearest in time to [cur]. *)
Definition nearest (cur : Transaction)
  : list Transaction -> option Transaction :=
  pick (fun t b => (distance cur t <=? distance cur b)%Z).

(** Within [DUPLICATE_TIME_WINDOW_HOURS] of the current attempt. *)
Definition within_window (cur t : Transaction) : bool :=
  (distance cur t <=? DUPLICATE_TIME_WINDOW_HOURS cfg * 3600)%Z.

(** Modelled from the spec: [backend/duplicate_detection.py] is not in the source tree.
    Here, prior successful transactions of the
    beneficiary in the cycle of the current attempt. *)
Definition prior_successes (cur : Transaction) (history : list Transaction)
    (b : Beneficiary) : list Transaction :=
  filter (fun t => is_success (tx_status t))
    (excluding cur
       (findByBeneficiaryInCycle history (beneficiary_key b) (cycle_id cur))).

(** Modelled from the spec: [backend/duplicate_detection.py] is not in the source tree.
    Here, rule 1, different_person. *)
Definition rule_different_person (cur : Transaction)
    (ben : option Beneficiary) : list AlertSpec :=
  match ben with
  | Some _ =>
      if face_rejected (face_match_confidence cur) then
        [mkAlertSpec different_person critical
           ("Face does not match the beneficiary registered for card "
            ++ tx_card_number cur)
           None]
      else []
  | None => []
  end.

(** Modelled from the spec: [backend/duplicate_detection.py] is not in the source tree.
    Here, rule 2, duplicate_location. *)
Definition rule_duplicate_location (cur : Transaction)
    (history : list Transaction) (ben : option Beneficiary)
  : list AlertSpec :=
  match ben with
  | Some b =>
      if face_accepted (face_match_confidence cur) then
        match latest (filter (fun t => negb (Nat.eqb (shop_id t) (shop_id cur)))
                        (prior_successes cur history b)) with
        | Some p =>
            [mkAlertSpec duplicate_location high
               "Ration already collected at a different shop in this cycle"
               (Some (tx_id p))]
        | None => []
        end
      else []
  | None => []
  end.

(** Modelled from the spec: [backend/duplicate_detection.py] is not in the source tree.
    Here, rule 3, multiple_attempts. *)
Definition rule_multiple_attempts (cur : Transaction)
    (history : list Transaction) (ben : option Beneficiary)
  : list AlertSpec :=
  match ben with
  | Some b =>
      if face_accepted (face_match_confidence cur) then
        let s := prior_successes cur history b in
        if Nat.leb (MAX_TRANSACTIONS_PER_CYCLE cfg) (List.length s) then
          [mkAlertSpec multiple_attempts high
             "Collection limit of the cycle already reached"
             (option_map tx_id (earliest s))]
        else []
      else []
  | None => []
  end.

(** Modelled from the spec: [backend/duplicate_detection.py] is not in the source tree.
    Here, the case that rule 4 sets aside, a prior
    transaction captured by rule 2 (a success of the same beneficiary in
    the cycle at a different shop) that is at the identical shop. *)
Definition set_aside (cur : Transaction) (b : Beneficiary) (t : Transaction)
  : bool :=
  (is_success (tx_status t)
   && option_uuid_eqb (beneficiary_id t) (beneficiary_key b)
   && Nat.eqb (cycle_id t) (cycle_id cur)
   && negb (Nat.eqb (shop_id t) (shop_id cur)))
  && Nat.eqb (shop_id t) (shop_id cur).

(** Modelled from the spec: [backend/duplicate_detection.py] is not in the source tree.
    Here, the prior transactions rule 4 looks at, of any
    status and at any shop. *)
Definition timing_conflicts (cur : Transaction) (history : list Transaction)
    (b : Beneficiary) : list Transaction :=
  filter (fun t => within_window cur t && negb (set_aside cur b t))
    (excluding cur
       (findByCardInCycle history (tx_card_number cur) (cycle_id cur))).

(** Modelled from the spec: [backend/duplicate_detection.py] is not in the source tree.
    Here, rule 4, suspicious_timing. *)
Definition rule_suspicious_timing (cur : Transaction)
    (history : list Transaction) (ben : option Beneficiary)
  : list AlertSpec :=
  match ben with
  | Some b =>
      if face_accepted (face_match_confidence cur) then
        match nearest cur (timing_conflicts cur history b) with
        | Some p =>
            [mkAlertSpec suspicious_timing medium
               "Another attempt for this card inside the time window"
               (Some (tx_id p))]
        | None => []
        end
      else []
  | None => []
  end.

(** Modelled from the spec: [backend/duplicate_detection.py] is not in the source tree.
    Here, all rules, in their fixed order. *)
Definition evaluate (cur : Transaction) (history : list Transaction)
    (ben : option Beneficiary) : list AlertSpec :=
  rule_different_person cur ben
  ++ rule_duplicate_location cur history ben
  ++ rule_multiple_attempts cur history ben
  ++ rule_suspicious_timing cur history ben.

(** An alert of one of the rules 2 to 4. *)
Definition is_duplicate_signal (a : AlertSpec) : bool :=
  negb (AlertType_eqb (alert_type a) different_person).

(** Modelled from the spec: [backend/duplicate_detection.py] is not in the source tree.
    Here, the derived status of a transaction. *)
Definition derive_status (ben : option Beneficiary) (confidence : option Q)
    (raised : list AlertSpec) : TransactionStatus :=
  match ben with
  | None => failed
  | Some _ =>
      if face_accepted confidence then
        if existsb is_duplicate_signal raised then flagged else success
      else failed
  end.

End Evaluator.

(** *** Verification Orchestrator *)

(** Modelled from the spec: [backend/models.py] is not in the source tree.
    Here, the arguments of [Verify]. *)
Record VerifyRequest : Type := mkRequest {
  req_card_number : string;
  req_shop_id : uuid;
  face_sample : string;
  operator_id : string
}.

(** Modelled from the spec: [backend/models.py] is not in the source tree.
    Here, [VerificationResult]. *)
Record VerificationResult : Type := mkResult {
  accepted : bool;
  transaction_status : TransactionStatus;
  confidence : option Q;
  alerts : list AlertSpec;
  message : string
}.

(** Modelled from the spec: [backend/main.py] is not in the source tree.
    Here, how a request ends.  A configuration error
    leaves no trace; a completion inconsistency names the transaction and
    the alert types that were not persisted. *)
Inductive Outcome : Type :=
  | ConfigurationError
  | Responded (r : VerificationResult)
  | CompletionInconsistency (transaction : uuid)
      (not_persisted : list AlertType) (r : VerificationResult).

Definition outcome_result (o : Outcome) : option VerificationResult :=
  match o with
  | ConfigurationError => None
  | Responded r => Some r
  | CompletionInconsistency _ _ r => Some r
  end.

(** The datastore as the engine sees it. *)
Record Store : Type := mkStore {
  registry : list Beneficiary;
  cycles : list DistributionCycle;
  ledger : list Transaction;
  alert_store : list DuplicateAlert
}.

Section Orchestrator.

Variable cfg : Configuration.

(** The external Face Comparator; [None] is an ExternalServiceError. *)
Variable compare : string -> string -> option Q.

(** Whether the datastore accepts the write of an alert. *)
Variable persists : AlertSpec -> bool.

(** The clock read by [append]. *)
Variable now : timestamp.

(** Modelled from the spec: [backend/main.py] is not in the source tree.
    Here, each alert is persisted individually, linked
    to the originating transaction, in status [pending]. *)
Fixpoint persist_alerts (tx : uuid) (store : list DuplicateAlert)
    (raised : list AlertSpec) : list DuplicateAlert :=
  match raised with
  | [] => store
  | a :: rest =>
      if persists a then
        persist_alerts tx
          (store ++ [mkDuplicateAlert
                       (Schema.fresh_uuid (map alert_id store))
                       a tx pending None None])
          rest
      else persist_alerts tx store rest
  end.

(** The message of the result, which tells an unavailable comparator from
    a rejected face. *)
Definition result_message (confidence : option Q)
    (st : TransactionStatus) : string :=
  match confidence, st with
  | None, _ => "Face comparison service unavailable"
  | Some _, failed => "Face does not match the registered beneficiary"
  | Some _, flagged => "Face verified, duplicate alerts raised"
  | Some _, success => "Verification successful"
  end.

(** Modelled from the spec: [backend/main.py] is not in the source tree.
    Here, the Verification Orchestrator,
    RECEIVED, IDENTITY_RESOLVED, FACE_COMPARED, LEDGER_WRITTEN,
    RULES_EVALUATED, ALERTS_PERSISTED, RESPONDED.  The active cycle is
    read before anything is written. *)
Definition verify (st : Store) (req : VerifyRequest) : Store * Outcome :=
  match resolve_active_cycle (cycles st) with
  | None => (st, ConfigurationError)
  | Some cyc =>
      match lookup (registry st) (req_card_number req) with
      | None =>
          let '(ledger1, _) :=
            append now (ledger st) None (req_card_number req)
              (req_shop_id req) (cycle_key cyc) None failed in
          (mkStore (registry st) (cycles st) ledger1 (alert_store st),
           Responded (mkResult false failed None [] "Card not registered"))
      | Some b =>
          let conf := compare (reference_face_embedding b) (face_sample req) in
          let provisional := if face_accepted cfg conf then success else failed in
          let '(ledger1, cur) :=
            append now (ledger st) (Some (beneficiary_key b))
              (req_card_number req) (req_shop_id req) (cycle_key cyc)
              conf provisional in
          let raised := evaluate cfg cur ledger1 (Some b) in
          let final := derive_status cfg (Some b) conf raised in
          let ledger2 := attach_status ledger1 (tx_id cur) final in
          let stored := persist_alerts (tx_id cur) (alert_store st) raised in
          let r := mkResult (face_accepted cfg conf) final conf raised
                     (result_message conf final) in
          let lost := map alert_type
                        (filter (fun a => negb (persists a)) raised) in
          (mkStore (registry st) (cycles st) ledger2 stored,
           match lost with
           | [] => Responded r
           | _ :: _ => CompletionInconsistency (tx_id cur) lost r
           end)
      end
  end.

End Orchestrator.

(** The alerts of one type among those raised. *)
Definition alerts_of_type (ty : AlertType) (l : list AlertSpec)
  : list AlertSpec :=
  filter (fun a => AlertType_eqb (alert_type a) ty) l.

(** The alerts a request answers with. *)
Definition outcome_alerts (o : Outcome) : list AlertSpec :=
  match outcome_result o with
  | Some r => alerts r
  | None => []
  end.

End Engine.

(** ** MonitoringDashboard.tsx: what the cards show *)

Module MonitoringView.

Import Schema Monitoring.

(** The badge of the alert panel:
    [recentAlerts.filter((a) => a.status === 'pending').length]. *)
Definition pending_badge (st : State) : nat :=
  List.length (filter review_buttons_shown (recentAlerts st)).

(** The columns of an alert that a review does not write. *)
Definition unreviewed_columns (a : duplicate_alerts.row) :=
  (duplicate_alerts.id a, duplicate_alerts.alert_type a,
   duplicate_alerts.beneficiary_id a, duplicate_alerts.card_number a,
   duplicate_alerts.transaction_id a,
   duplicate_alerts.previous_transaction_id a,
   duplicate_alerts.shop_id a, duplicate_alerts.description a,
   duplicate_alerts.severity a, duplicate_alerts.created_at a).

(** [s.replace(/_/g, ' ')] *)
Fixpoint replace_underscores (s : string) : string :=
  match s with
  | EmptyString => EmptyString
  | String c s' =>
      String (if Ascii.eqb c "_" then " "%char else c) (replace_underscores s')
  end.

Definition is_lower (c : ascii) : bool :=
  Nat.leb 97 (nat_of_ascii c) && Nat.leb (nat_of_ascii c) 122.

Definition is_upper (c : ascii) : bool :=
  Nat.leb 65 (nat_of_ascii c) && Nat.leb (nat_of_ascii c) 90.

(** [s.toUpperCase()] on a string of ASCII characters: the letters [a] to
    [z] go to [A] to [Z], every other ASCII character stays. *)
Fixpoint toUpperCase (s : string) : string :=
  match s with
  | EmptyString => EmptyString
  | String c s' =>
      String (if is_lower c then ascii_of_nat (nat_of_ascii c - 32) else c)
             (toUpperCase s')
  end.

(** The heading of an alert card:
    [alert.alert_type.replace(/_/g, ' ').toUpperCase()]. *)
Definition alert_heading (alert_type : string) : string :=
  toUpperCase (replace_underscores alert_type).

Fixpoint string_forall (p : ascii -> bool) (s : string) : bool :=
  match s with
  | EmptyString => true
  | String c s' => p c && string_forall p s'
  end.

(** The alphabet of the alert types: lower-case letters and the
    underscore. *)
Definition snake_case (s : string) : bool :=
  string_forall (fun c => is_lower c || Ascii.eqb c "_") s.

(** Capital letters and spaces. *)
Definition capitals (s : string) : bool :=
  string_forall (fun c => is_upper c || Ascii.eqb c " ") s.

(** Newest first. *)
Definition not_older {A : Type} (key : A -> timestamptz) (x y : A) : Prop :=
  (key y <= key x)%Z.

(** [shown] is what a query [.order(key, { ascending: false }).limit(10)]
    may answer on [table]: ten rows, or all of them when there are fewer,
    newest first, none of the rows left out being newer than a row shown.
    The order among rows with the same key is left open. *)
Definition ten_newest {A : Type} (key : A -> timestamptz)
    (table shown : list A) : Prop :=
  List.length shown = Nat.min 10 (List.length table) /\
  StronglySorted (not_older key) shown /\
  exists rest,
    Permutation table (shown ++ rest) /\
    forall x y, In x shown -> In y rest -> (key y <= key x)%Z.

(** [data] is what one query of [loadData] may come back with on
    [table]: ten newest rows, or nothing when the query failed. *)
Definition may_answer {A : Type} (key : A -> timestamptz) (table : list A)
    (data : option (list A)) : Prop :=
  match data with
  | Some rows => ten_newest key table rows
  | None => True
  end.


End MonitoringView.

(** ** BeneficiaryList (the list of all beneficiaries) *)

Module BeneficiaryList.

Import Schema.

(** [s.includes(sub)]: [sub] occurs in [s]. *)
Fixpoint includes (s sub : string) : bool :=
  String.prefix sub s
  || match s with
     | EmptyString => false
     | String _ s' => includes s' sub
     end.

(** The [useState] cells of the component. *)
Record State : Type := mkState {
  beneficiaries : list beneficiaries.row;
  loading : bool;
  searchTerm : string
}.

(** [loadBeneficiaries], for the answer of
    [supabase.from('beneficiaries').select('*')
       .order('created_at', { ascending: false })]: an error is thrown and
    logged; in both cases the loading state ends. *)
Definition loadBeneficiaries (answer : pg_error + list beneficiaries.row)
    (st : State) : State :=
  match answer with
  | inl _ => mkState (beneficiaries st) false (searchTerm st)
  | inr data => mkState data false (searchTerm st)
  end.

(** [setSearchTerm(e.target.value)] *)
Definition setSearchTerm (term : string) (st : State) : State :=
  mkState (beneficiaries st) (loading st) term.

Section Search.

(** [String.prototype.toLowerCase], left to the JavaScript engine. *)
Variable toLowerCase : string -> string.

(** The predicate of [beneficiaries.filter(...)]:
    [b.name.toLowerCase().includes(searchTerm.toLowerCase())
     || b.card_number.includes(searchTerm)]. *)
Definition matches (term : string) (b : beneficiaries.row) : bool :=
  includes (toLowerCase (beneficiaries.name b)) (toLowerCase term)
  || includes (beneficiaries.card_number b) term.

Definition filteredBeneficiaries (st : State) : list beneficiaries.row :=
  filter (matches (searchTerm st)) (beneficiaries st).

(** [filteredBeneficiaries.length === 0 && ...]: the line
    'No beneficiaries found'. *)
Definition nothing_found_shown (st : State) : bool :=
  Nat.eqb (List.length (filteredBeneficiaries st)) 0.

End Search.

End BeneficiaryList.

(** ** The reference tables and their seed rows *)

Module Migration.

Import Schema.

Module ration_shops.

Record row : Type := mk {
  id : uuid;
  shop_code : string;              (* text UNIQUE NOT NULL *)
  name : string;
  location : string;
  district : string;
  state : option string;           (* DEFAULT 'India' *)
  operator_name : option string;
  created_at : timestamptz
}.

End ration_shops.

Module distribution_cycles.

Record row : Type := mk {
  id : uuid;
  cycle_name : string;
  start_date : string;
  end_date : string;
  status : option string;          (* DEFAULT 'active' CHECK (...) *)
  created_at : timestamptz
}.

Definition status_values : list string := ["active"; "completed"; "cancelled"].

End distribution_cycles.

(** One tuple of the VALUES list of the insert into [ration_shops]. *)
Record shop_values : Type := mkShopValues {
  v_shop_code : string;
  v_name : string;
  v_location : string;
  v_district : string;
  v_state : string;
  v_operator_name : string
}.

Definition shop_code_taken (tbl : list ration_shops.row) (code : string)
  : bool :=
  existsb (fun r => String.eqb (ration_shops.shop_code r) code) tbl.

(** [INSERT INTO ration_shops ... ON CONFLICT (shop_code) DO NOTHING] for
    one tuple: a tuple whose shop code is in the table, or was inserted by
    an earlier tuple of the statement, is skipped. *)
Definition insert_shop (now : timestamptz) (tbl : list ration_shops.row)
    (v : shop_values) : list ration_shops.row :=
  if shop_code_taken tbl (v_shop_code v) then tbl
  else tbl ++ [ration_shops.mk
                 (fresh_uuid (map ration_shops.id tbl))
                 (v_shop_code v) (v_name v) (v_location v) (v_district v)
                 (Some (v_state v)) (Some (v_operator_name v)) now].

Definition insert_shops (now : timestamptz) (values : list shop_values)
    (tbl : list ration_shops.row) : list ration_shops.row :=
  fold_left (insert_shop now) values tbl.

(** The sample shops of the migration. *)
Definition sample_shops : list shop_values :=
  [mkShopValues "RS001" "Central Ration Shop" "123 Market Street, Downtown"
     "Central District" "State A" "Rajesh Kumar";
   mkShopValues "RS002" "North Zone Fair Price Shop"
     "456 North Avenue, Sector 5" "North District" "State A" "Priya Sharma";
   mkShopValues "RS003" "East District PDS Center" "789 East Road, Block C"
     "East District" "State A" "Mohammed Ali"].

Definition seed_shops (now : timestamptz) (tbl : list ration_shops.row)
  : list ration_shops.row :=
  insert_shops now sample_shops tbl.

(** [INSERT INTO distribution_cycles (cycle_name, start_date, end_date,
    status) VALUES ('December 2025', ...) ON CONFLICT DO NOTHING]: the only
    unique column of the table is [id], which takes a new
    [gen_random_uuid()], so no conflict arises and the row is inserted. *)
Definition seed_cycles (now : timestamptz)
    (tbl : list distribution_cycles.row) : list distribution_cycles.row :=
  tbl ++ [distribution_cycles.mk
            (fresh_uuid (map distribution_cycles.id tbl))
            "December 2025" "2025-12-01" "2025-12-31" (Some "active") now].

Definition active_cycles (tbl : list distribution_cycles.row) : nat :=
  List.length
    (filter (fun r => match distribution_cycles.status r with
                      | Some s => String.eqb s "active"
                      | None => false
                      end) tbl).

Definition unique_shop_codes (tbl : list ration_shops.row) : Prop :=
  NoDup (map ration_shops.shop_code tbl).

End Migration.

(** ** OperatorDashboard.tsx *)

Module Operator.

Import Schema.

(** One entry of [alerts] in the answer of the verification service. *)
Record AlertView : Type := mkAlertView {
  alert_type : string;
  description : string;
  severity : string
}.

(** The [VerificationResponse] interface; an absent optional field is
    [None], an absent [success] is [false]. *)
Record VerificationResponse : Type := mkResponse {
  success : bool;
  message : string;
  transaction_id : option string;
  beneficiary : option (string * string);
  confidence : option Q;
  alerts : option (list AlertView)
}.

(** The JSON body of the POST to [/api/verify]. *)
Record VerificationRequest : Type := mkRequest {
  card_number : string;
  shop_id : uuid;
  captured_image_base64 : string;
  operator_id : string;
  items_collected : list string
}.

(** The [useState] cells of the component; [selectedShop] is [None] for the
    empty string. *)
Record State : Type := mkState {
  shops : list Migration.ration_shops.row;
  selectedShop : option uuid;
  cardNumber : string;
  capturedImage : option string;
  operatorId : string;
  verifying : bool;
  result : option VerificationResponse
}.

Definition setShops (l : list Migration.ration_shops.row) (st : State) : State :=
  mkState l (selectedShop st) (cardNumber st) (capturedImage st)
          (operatorId st) (verifying st) (result st).

Definition setSelectedShop (i : option uuid) (st : State) : State :=
  mkState (shops st) i (cardNumber st) (capturedImage st)
          (operatorId st) (verifying st) (result st).

Definition setCardNumber (c : string) (st : State) : State :=
  mkState (shops st) (selectedShop st) c (capturedImage st)
          (operatorId st) (verifying st) (result st).

Definition setCapturedImage (i : option string) (st : State) : State :=
  mkState (shops st) (selectedShop st) (cardNumber st) i
          (operatorId st) (verifying st) (result st).

Definition setVerifying (b : bool) (st : State) : State :=
  mkState (shops st) (selectedShop st) (cardNumber st) (capturedImage st)
          (operatorId st) b (result st).

Definition setResult (r : option VerificationResponse) (st : State) : State :=
  mkState (shops st) (selectedShop st) (cardNumber st) (capturedImage st)
          (operatorId st) (verifying st) r.

(** The state the component starts in. *)
Definition initial : State :=
  mkState [] None EmptyString None "OP001" false None.

(** [loadShops], for the answer of
    [supabase.from('ration_shops').select('*').order('name')]: an error is
    thrown and logged; otherwise the shops are stored and the first one is
    selected. *)
Definition loadShops (answer : pg_error + list Migration.ration_shops.row)
    (st : State) : State :=
  match answer with
  | inl _ => st
  | inr data =>
      let st1 := setShops data st in
      match data with
      | [] => st1
      | first :: _ => setSelectedShop (Some (Migration.ration_shops.id first)) st1
      end
  end.

(** [!cardNumber || !capturedImage || !selectedShop] *)
Definition incomplete (st : State) : bool :=
  js_not (cardNumber st) || js_not_nullable (capturedImage st)
  || match selectedShop st with None => true | Some _ => false end.

(** The [disabled] attribute of the Verify button. *)
Definition verify_button_disabled (st : State) : bool :=
  verifying st || incomplete st.

(** [!data.alerts || data.alerts.length === 0] *)
Definition no_alerts (r : VerificationResponse) : bool :=
  match alerts r with
  | None => true
  | Some [] => true
  | Some (_ :: _) => false
  end.

Definition service_unavailable : VerificationResponse :=
  mkResponse false
    "Verification service unavailable. Please ensure backend is running."
    None None None (Some []).

(** What a call of [handleVerify] leaves behind: the state, the texts shown
    with [alert], the requests sent, and whether the reset of the form was
    scheduled with [setTimeout(..., 5000)]. *)
Record Outcome : Type := mkOutcome {
  state : State;
  alerted : list string;
  sent : list VerificationRequest;
  reset_scheduled : bool
}.

Section HandleVerify.

(** The verification service: the parsed answer to a request, or [None]
    when [fetch] or [response.json()] throws. *)
Variable service : VerificationRequest -> option VerificationResponse.

Definition handleVerify (st : State) : Outcome :=
  if incomplete st then
    mkOutcome st
      ["Please enter card number, select shop, and capture/upload image"]
      [] false
  else
    let st1 := setResult None (setVerifying true st) in
    let request :=
      mkRequest (cardNumber st)
        (match selectedShop st with Some i => i | None => 0 end)
        (match capturedImage st with Some i => i | None => EmptyString end)
        (operatorId st) [] in
    match service request with
    | Some data =>
        mkOutcome (setVerifying false (setResult (Some data) st1)) []
          [request] (success data && no_alerts data)
    | None =>
        mkOutcome (setVerifying false (setResult (Some service_unavailable) st1))
          [] [request] false
    end.

End HandleVerify.

(** The callback of the timer:
    [setCardNumber(''); setCapturedImage(null); setResult(null)]. *)
Definition reset (st : State) : State :=
  setResult None (setCapturedImage None (setCardNumber EmptyString st)).

(** The colour of the result panel. *)
Inductive Panel : Type := green | yellow | red.

Definition panel (r : VerificationResponse) : Panel :=
  if success r && no_alerts r then green
  else if success r then yellow
  else red.

End Operator.

(** ** AdminDashboard.tsx *)

Module Admin.

Import Schema.

Record DashboardStats : Type := mkStats {
  total_beneficiaries : nat;
  active_beneficiaries : nat;
  total_transactions : nat;
  flagged_transactions : nat;
  pending_alerts : nat;
  critical_alerts : nat
}.

(** [.eq(column, value)] on a nullable text column. *)
Definition eq_text (column : option string) (value : string) : bool :=
  match column with
  | Some s => String.eqb s value
  | None => false
  end.

(** [count || 0], the count being [null] when the request failed. *)
Definition or_zero (count : option nat) : nat :=
  match count with
  | Some n => n
  | None => 0
  end.

(** The six counting queries of [loadStats], each on the state of its table
    at the time it is answered ([None] when the request failed). *)
Definition loadStats
    (b1 b2 : option (list beneficiaries.row))
    (t1 t2 : option (list transactions.row))
    (a1 a2 : option (list duplicate_alerts.row)) : DashboardStats :=
  mkStats
    (or_zero (option_map (@List.length _) b1))
    (or_zero (option_map
                (fun l => List.length
                            (filter (fun r => eq_text (beneficiaries.status r)
                                                "active") l)) b2))
    (or_zero (option_map (@List.length _) t1))
    (or_zero (option_map
                (fun l => List.length
                            (filter (fun r => eq_text (transactions.status r)
                                                "flagged") l)) t2))
    (or_zero (option_map
                (fun l => List.length
                            (filter (fun r => eq_text (duplicate_alerts.status r)
                                                "pending") l)) a1))
    (or_zero (option_map
                (fun l => List.length
                            (filter (fun r => eq_text (duplicate_alerts.severity r)
                                                "critical"
                                              && eq_text (duplicate_alerts.status r)
                                                   "pending") l)) a2)).

(** [loadStats] when nothing is written between its queries and all of
    them are answered. *)
Definition loadStats_at (b : list beneficiaries.row)
    (t : list transactions.row) (a : list duplicate_alerts.row)
  : DashboardStats :=
  loadStats (Some b) (Some b) (Some t) (Some t) (Some a) (Some a).

(** [stats.critical_alerts > 0 && ...]: the red banner. *)
Definition critical_banner_shown (s : DashboardStats) : bool :=
  Nat.ltb 0 (critical_alerts s).

End Admin.

(** ** The camera of the registration form and of the operator screen *)

Module Camera.

(** A [MediaStream] handed out by [getUserMedia]. *)
Definition MediaStream := nat.

(** The cells and references [startCamera], [stopCamera] and
    [capturePhoto] work on.  The [video] element is rendered inside
    [useCamera && (...)], so [videoRef.current] is set exactly while
    [useCamera] is true; [video_srcObject] is the [srcObject] of that
    element.  [running] lists the streams whose tracks have not been
    stopped, and [failure] is the text last reported: with [setMessage] in
    the registration form, with [alert] on the operator screen. *)
Record State : Type := mkState {
  useCamera : bool;
  capturedImage : option string;
  streamRef : option MediaStream;
  video_srcObject : option MediaStream;
  running : list MediaStream;
  failure : option string
}.

(** [setUseCamera(b)] and the rendering that follows: a [video] element
    that appears is a new one, without [srcObject]; one that disappears
    takes its [srcObject] with it. *)
Definition setUseCamera (b : bool) (st : State) : State :=
  mkState b (capturedImage st) (streamRef st)
          (if b && useCamera st then video_srcObject st else None)
          (running st) (failure st).

(** [startCamera], from the moment [getUserMedia] settles: [granted] is the
    stream, or [None] when the promise is rejected. *)
Definition startCamera (granted : option MediaStream) (st : State) : State :=
  match granted with
  | None =>
      mkState (useCamera st) (capturedImage st) (streamRef st)
              (video_srcObject st) (running st)
              (Some "Failed to access camera")
  | Some stream =>
      let st1 :=
        if useCamera st then
          mkState (useCamera st) (capturedImage st) (Some stream)
                  (Some stream) (stream :: running st) (failure st)
        else
          mkState (useCamera st) (capturedImage st) (streamRef st)
                  (video_srcObject st) (stream :: running st) (failure st)
      in
      setUseCamera true st1
  end.

(** [stopCamera] *)
Definition stopCamera (st : State) : State :=
  let st1 :=
    match streamRef st with
    | Some stream =>
        mkState (useCamera st) (capturedImage st) None (video_srcObject st)
                (filter (fun s => negb (Nat.eqb s stream)) (running st))
                (failure st)
    | None => st
    end in
  setUseCamera false st1.

Section Capture.

(** [canvas.toDataURL('image/jpeg')] after [drawImage(video, 0, 0)], as a
    function of what the video element plays. *)
Variable toDataURL : option MediaStream -> string.

(** [capturePhoto]; the canvas is always rendered, and a 2d context is
    taken to be available. *)
Definition capturePhoto (st : State) : State :=
  if useCamera st then
    stopCamera
      (mkState (useCamera st) (Some (toDataURL (video_srcObject st)))
               (streamRef st) (video_srcObject st) (running st) (failure st))
  else st.

End Capture.

(** The two buttons 'Use Camera' and 'Upload Image' are rendered inside
    [!capturedImage && !useCamera && (...)]. *)
Definition use_camera_button_shown (st : State) : bool :=
  js_not_nullable (capturedImage st) && negb (useCamera st).

(** [setCapturedImage(v)]: the Retake button passes [null], the
    [onloadend] handler of [handleFileUpload] the data URL read from the
    file. *)
Definition setCapturedImage (v : option string) (st : State) : State :=
  mkState (useCamera st) v (streamRef st) (video_srcObject st) (running st)
          (failure st).

(** What happens to the camera part of a component: [getUserMedia] settles
    for a pending [startCamera], Cancel is pressed, a photo is captured,
    Retake is pressed, an uploaded file has been read. *)
Inductive Event : Type :=
  | Granted (stream : MediaStream)
  | Denied
  | Cancel
  | CapturePhoto
  | Retake
  | FileRead (dataUrl : string).

Definition step (toDataURL : option MediaStream -> string) (e : Event)
    (st : State) : State :=
  match e with
  | Granted stream => startCamera (Some stream) st
  | Denied => startCamera None st
  | Cancel => stopCamera st
  | CapturePhoto => capturePhoto toDataURL st
  | Retake => setCapturedImage None st
  | FileRead dataUrl => setCapturedImage (Some dataUrl) st
  end.

(** The state both components start in. *)
Definition initial : State := mkState false None None None [] None.

Definition run (toDataURL : option MediaStream -> string)
    (events : list Event) : State :=
  fold_left (fun st e => step toDataURL e st) events initial.

End Camera.

(** ** Concrete data used in the examples *)

Module Samples.

Import Schema.

(** A data URL of 133 characters. *)
Definition image : string :=
  "data:image/jpeg;base64,/9j/4AAQSkZJRgABAQAAAQABAAD/2wBDAAgGBgcGBQgHBwcJCQgKDBQNDAsLDBkSEw8UHRofHh0aHBwgJC4nICIsIxwcKDcpLDAxNDQ0Hyc5PT".

Definition form : Registration.FormData :=
  Registration.mkFormData "BPL001" "Asha Devi" "9876543210" "Ward 4".

Definition form_without_name : Registration.FormData :=
  Registration.mkFormData "BPL001" EmptyString "9876543210" "Ward 4".

Definition submitted : Registration.State :=
  Registration.mkState form (Some image) false None.

Definition submitted_without_name : Registration.State :=
  Registration.mkState form_without_name (Some image) false None.

(** A registered beneficiary, suspended since. *)
Definition suspended_row : beneficiaries.row :=
  beneficiaries.mk 1 "BPL001" "Asha Devi" None None None (Some image)
    (Some "suspended") 100%Z 150%Z.

Definition pg_message (e : pg_error) : string :=
  match e with
  | unique_violation c =>
      "duplicate key value violates unique constraint " ++ c
  | check_violation c => "new row violates check constraint " ++ c
  end.

(** A client that registers [BPL001] between the query and the insert. *)
Definition racing_client (tbl : list beneficiaries.row)
  : list beneficiaries.row :=
  tbl ++ [suspended_row].

(** An alert that was resolved at time 1000. *)
Definition resolved_alert : duplicate_alerts.row :=
  duplicate_alerts.mk 7 "different_person" (Some 1) "BPL001" (Some 3) None 2
    "Face does not match" (Some "critical") (Some "resolved")
    (Some "Admin") (Some 1000%Z) 900%Z.

Definition pending_alert : duplicate_alerts.row :=
  duplicate_alerts.mk 8 "suspicious_timing" (Some 1) "BPL001" (Some 4)
    (Some 3) 2 "Repeated attempt" (Some "medium") (Some "pending")
    None None 950%Z.

Definition dashboard_db : Monitoring.Database :=
  Monitoring.mkDatabase [] [resolved_alert; pending_alert].

Definition dashboard : Monitoring.State :=
  Monitoring.mkState [] [pending_alert; resolved_alert] false.

(** What the queries of the dashboard come back with after alert 7 was
    dismissed, and after alert 8 was resolved, at time 2000. *)
Definition refreshed_after_dismissal : Monitoring.Answers :=
  Some (Some [],
        Some [pending_alert;
              Monitoring.review_patch "dismissed" 2000%Z resolved_alert]).

Definition refreshed_after_resolution : Monitoring.Answers :=
  Some (Some [],
        Some [Monitoring.review_patch "resolved" 2000%Z pending_alert;
              resolved_alert]).

(** Both queries failed. *)
Definition refresh_failed : Monitoring.Answers := Some (None, None).

(** A row of [transactions] whose status is [pending]. *)
Definition pending_transaction : transactions.row :=
  transactions.mk 3 (Some 1) "BPL001" 2 None (Some "face") (Some 72%Q) None
    (Some "pending") (Some "OP001") None 900%Z.

(** One registered beneficiary, a completed and an active cycle, an empty
    ledger. *)
Definition beneficiary : Engine.Beneficiary :=
  Engine.mkBeneficiary 1 "BPL001" "Asha Devi" "enrolled-face" Engine.active.

Definition november : Engine.DistributionCycle :=
  Engine.mkCycle 11 0%Z 2592000%Z Engine.completed.

Definition december : Engine.DistributionCycle :=
  Engine.mkCycle 12 2592000%Z 5270400%Z Engine.cycle_active.

Definition store : Engine.Store :=
  Engine.mkStore [beneficiary] [november; december] [] [].

Definition store_without_active_cycle : Engine.Store :=
  Engine.mkStore [beneficiary] [november] [] [].

(** A comparator that scores the holder at 91, anybody else at 23, and is
    out of service for an unreadable sample. *)
Definition comparator (reference sample : string) : option Q :=
  if String.eqb sample "holder" then Some 91%Q
  else if String.eqb sample "unreadable" then None
  else Some 23%Q.

Definition all_persisted (a : Engine.AlertSpec) : bool := true.

Definition holder_at_shop1 : Engine.VerifyRequest :=
  Engine.mkRequest "BPL001" 1 "holder" "OP001".

Definition holder_at_shop2 : Engine.VerifyRequest :=
  Engine.mkRequest "BPL001" 2 "holder" "OP002".

Definition impostor_at_shop1 : Engine.VerifyRequest :=
  Engine.mkRequest "BPL001" 1 "stranger" "OP001".

Definition unknown_card_at_shop1 : Engine.VerifyRequest :=
  Engine.mkRequest "BPL999" 1 "holder" "OP001".

(** The store while November is the active cycle, and what the first
    attempt of the holder, shortly before the end of November, leaves. *)
Definition store_in_november : Engine.Store :=
  Engine.mkStore [beneficiary]
    [Engine.mkCycle 11 0%Z 2592000%Z Engine.cycle_active] [] [].

Definition after_attempt_in_november : Engine.Store :=
  fst (Engine.verify Engine.default_configuration comparator all_persisted
         2590000%Z store_in_november holder_at_shop1).

(** The same ledger once November is completed and December active. *)
Definition in_december : Engine.Store :=
  Engine.mkStore [beneficiary] [november; december]
    (Engine.ledger after_attempt_in_november)
    (Engine.alert_store after_attempt_in_november).

(** Three attempts of the holder in December: at a time, ten hours later
    and thirty hours later. *)
Definition after_first_attempt : Engine.Store :=
  fst (Engine.verify Engine.default_configuration comparator all_persisted
         3000000%Z store holder_at_shop1).

Definition after_second_attempt : Engine.Store :=
  fst (Engine.verify Engine.default_configuration comparator all_persisted
         (3000000 + 10 * 3600)%Z after_first_attempt holder_at_shop1).

End Samples.

(** ** More concrete data *)

Module MoreSamples.

Import Schema.

Definition central_shop : Migration.ration_shops.row :=
  Migration.ration_shops.mk 1 "RS001" "Central Ration Shop"
    "123 Market Street, Downtown" "Central District" (Some "State A")
    (Some "Rajesh Kumar") 50%Z.

(** The operator screen with a shop, a card number and an image. *)
Definition ready : Operator.State :=
  Operator.mkState [central_shop] (Some 1) "BPL001" (Some Samples.image)
    "OP001" false None.

(** A service that accepts everybody without alerts. *)
Definition accepting (q : Operator.VerificationRequest)
  : option Operator.VerificationResponse :=
  Some (Operator.mkResponse true "Verification successful" (Some "tx-1")
          (Some ("Asha Devi", Operator.card_number q)) (Some 91%Q) (Some [])).

(** A service that cannot be reached. *)
Definition unreachable (q : Operator.VerificationRequest)
  : option Operator.VerificationResponse := None.

(** A data URL for whatever the video element plays. *)
Definition toDataURL (source : option Camera.MediaStream) : string :=
  match source with
  | Some _ => Samples.image
  | None => "data:,"
  end.

End MoreSamples.

(** * Properties *)

(** ** Generic facts *)

Lemma fold_max_ge (l : list nat) (x : nat) :
  In x l -> x <= fold_right Nat.max 0 l.
Proof.
  induction l as [|y l IH]; simpl; intros H.
  - contradiction.
  - destruct H as [->|H].
    + apply Nat.le_max_l.
    + specialize (IH H). lia.
Qed.

Lemma fresh_uuid_fresh (l : list nat) : ~ In (Schema.fresh_uuid l) l.
Proof.
  unfold Schema.fresh_uuid. intros H.
  apply fold_max_ge in H. lia.
Qed.

Lemma js_not_true (s : string) : js_not s = true <-> s = EmptyString.
Proof.
  destruct s; simpl; split; intros H; try reflexivity; discriminate.
Qed.

Lemma js_not_false (s : string) : js_not s = false <-> s <> EmptyString.
Proof.
  destruct s; simpl; split; intros H; congruence.
Qed.

Lemma filter_nil_iff {A : Type} (f : A -> bool) (l : list A) :
  filter f l = [] <-> forall x, In x l -> f x = false.
Proof.
  induction l as [|y l IH]; simpl.
  - split; [intros _ x []|reflexivity].
  - destruct (f y) eqn:E; split; intros H.
    + discriminate.
    + rewrite (H y (or_introl eq_refl)) in E. discriminate.
    + intros x [<-|Hx]; [exact E|]. apply IH; assumption.
    + apply IH. intros x Hx. apply H. right. exact Hx.
Qed.

Lemma substring_0_length (n : nat) (s : string) :
  String.length (String.substring 0 n s) = Nat.min n (String.length s).
Proof.
  revert s. induction n as [|n IH]; intros [|c s]; simpl; try reflexivity.
  rewrite IH. reflexivity.
Qed.

Lemma substring_0_prefix (n : nat) (s : string) :
  String.prefix (String.substring 0 n s) s = true.
Proof.
  revert s. induction n as [|n IH]; intros [|c s]; simpl; try reflexivity.
  destruct (Ascii.ascii_dec c c) as [_|H]; [apply IH|exfalso; apply H; reflexivity].
Qed.

Lemma append_length (a b : string) :
  String.length (a ++ b) = String.length a + String.length b.
Proof.
  induction a as [|c a IH]; simpl; [reflexivity|]. rewrite IH. reflexivity.
Qed.

(** ** Registration *)

Module RegistrationFacts.

Import Schema Registration.

Lemma card_number_taken_true (tbl : list beneficiaries.row) (c : string) :
  beneficiaries.card_number_taken tbl c = true <->
  exists r, In r tbl /\ beneficiaries.card_number r = c.
Proof.
  unfold beneficiaries.card_number_taken. rewrite existsb_exists.
  split; intros (r & Hr & E); exists r; split; trivial;
    apply String.eqb_eq; exact E.
Qed.

Lemma card_number_taken_false (tbl : list beneficiaries.row) (c : string) :
  beneficiaries.card_number_taken tbl c = false <->
  ~ In c (map beneficiaries.card_number tbl).
Proof.
  split.
  - intros H Hin. apply in_map_iff in Hin. destruct Hin as (r & E & Hr).
    assert (T : beneficiaries.card_number_taken tbl c = true)
      by (apply card_number_taken_true; exists r; auto).
    congruence.
  - intros H. destruct (beneficiaries.card_number_taken tbl c) eqn:E; trivial.
    apply card_number_taken_true in E. destruct E as (r & Hr & <-).
    exfalso. apply H. apply in_map. exact Hr.
Qed.

Lemma select_absent (tbl : list beneficiaries.row) (c : string) :
  beneficiaries.card_number_taken tbl c = false ->
  select_id_by_card tbl c = [].
Proof.
  intros H. unfold select_id_by_card.
  replace (filter _ tbl) with (@nil beneficiaries.row); [reflexivity|].
  symmetry. apply filter_nil_iff. intros x Hx.
  destruct (String.eqb (beneficiaries.card_number x) c) eqn:E; trivial.
  apply String.eqb_eq in E.
  assert (T : beneficiaries.card_number_taken tbl c = true)
    by (apply card_number_taken_true; exists x; auto).
  congruence.
Qed.

Lemma select_present (tbl : list beneficiaries.row) (r : beneficiaries.row) :
  unique_cards tbl -> In r tbl ->
  select_id_by_card tbl (beneficiaries.card_number r) = [beneficiaries.id r].
Proof.
  unfold unique_cards, select_id_by_card.
  induction tbl as [|x tbl IH]; simpl; intros U Hin; [contradiction|].
  inversion U as [|? ? Hx U']; subst.
  destruct Hin as [->|Hin].
  - rewrite String.eqb_refl. simpl. f_equal.
    replace (filter _ tbl) with (@nil beneficiaries.row); [reflexivity|].
    symmetry. apply filter_nil_iff. intros y Hy.
    destruct (String.eqb (beneficiaries.card_number y)
                (beneficiaries.card_number r)) eqn:E; trivial.
    apply String.eqb_eq in E. exfalso. apply Hx. rewrite <- E.
    apply in_map. exact Hy.
  - destruct (String.eqb (beneficiaries.card_number x)
                (beneficiaries.card_number r)) eqn:E.
    + apply String.eqb_eq in E. exfalso. apply Hx. rewrite E.
      apply in_map. exact Hin.
    + apply IH; assumption.
Qed.

(** The UNIQUE index alone keeps card numbers distinct, whoever inserts. *)
Lemma insert_preserves_unique now tbl d tbl' r :
  unique_cards tbl -> insert now tbl d = inr (tbl', r) -> unique_cards tbl'.
Proof.
  unfold insert, unique_cards. intros U.
  destruct (negb _); [discriminate|].
  destruct (beneficiaries.card_number_taken tbl (card_number (d_form d))) eqn:T;
    [discriminate|].
  intros H. injection H as <- _.
  rewrite map_app. simpl.
  apply card_number_taken_false in T.
  apply NoDup_app; [exact U| |].
  - constructor; [intros []|constructor].
  - intros x Hx [<-|[]]. exact (T Hx).
Qed.

Lemma insert_rejects_taken now tbl f img :
  beneficiaries.card_number_taken tbl (card_number f) = true ->
  insert now tbl (beneficiaryData f img)
  = inl (unique_violation "beneficiaries_card_number_key").
Proof.
  intros T. unfold insert. simpl. rewrite T. reflexivity.
Qed.

Lemma insert_accepts_free now tbl f img :
  beneficiaries.card_number_taken tbl (card_number f) = false ->
  insert now tbl (beneficiaryData f img)
  = inr (tbl ++ [beneficiaries.mk (fresh_uuid (map beneficiaries.id tbl))
                   (card_number f) (name f) (Some (phone f))
                   (Some (address f)) (Some (truncated_image img))
                   (Some img) (Some "active") now now],
         beneficiaries.mk (fresh_uuid (map beneficiaries.id tbl))
                   (card_number f) (name f) (Some (phone f))
                   (Some (address f)) (Some (truncated_image img))
                   (Some img) (Some "active") now now).
Proof.
  intros T. unfold insert. simpl. rewrite T. reflexivity.
Qed.

Lemma valid_guards st img :
  valid st img ->
  js_not_nullable (capturedImage st) = false /\
  js_not (card_number (formData st)) || js_not (name (formData st)) = false.
Proof.
  intros (Hi & Hn & Hc & Hm). rewrite Hi. simpl.
  apply js_not_false in Hn, Hc, Hm. rewrite Hn, Hc, Hm. auto.
Qed.

Lemma handleSubmit_preserves_unique pg_message now concurrent db st :
  unique_cards db -> unique_cards (concurrent db) ->
  unique_cards (fst (handleSubmit pg_message now concurrent db st)).
Proof.
  intros U Uc. unfold handleSubmit.
  destruct (js_not_nullable (capturedImage st)); [exact U|].
  destruct (js_not _ || js_not _); [exact U|].
  destruct (maybeSingle _); [exact U|].
  destruct (insert now (concurrent db) _) as [e|[db' r]] eqn:E; simpl.
  - exact Uc.
  - eapply insert_preserves_unique; eassumption.
Qed.

(** C8.  A submission whose face image is missing or empty, or whose card
    number or name is empty, is turned down by the guards at the top of
    [handleSubmit]: the table of beneficiaries is the one it was, whatever
    other clients would have done in between, the form, the captured image
    and the loading flag keep their values, and the only thing set is the
    error message shown to the user. *)
Theorem handleSubmit_invalid_rejected :
  forall pg_message now concurrent db st,
    invalid st ->
    fst (handleSubmit pg_message now concurrent db st) = db /\
    formData (snd (handleSubmit pg_message now concurrent db st)) = formData st /\
    capturedImage (snd (handleSubmit pg_message now concurrent db st))
      = capturedImage st /\
    loading (snd (handleSubmit pg_message now concurrent db st)) = loading st /\
    exists t,
      message (snd (handleSubmit pg_message now concurrent db st))
      = Some (mkMessage error t).
Proof.
  intros pg_message now concurrent db st H. unfold handleSubmit.
  destruct (js_not_nullable (capturedImage st)) eqn:Ei.
  - simpl. repeat split. eexists. reflexivity.
  - destruct (js_not (card_number (formData st))
              || js_not (name (formData st))) eqn:Ef.
    + simpl. repeat split. eexists. reflexivity.
    + exfalso. apply orb_false_iff in Ef. destruct Ef as [Ec En].
      apply js_not_false in Ec, En.
      destruct H as [H|[H|[H|H]]]; try contradiction;
        rewrite H in Ei; simpl in Ei; discriminate.
Qed.

(** C10.  A submission that passes the guards for a card number absent from
    the registry appends one row whose [face_embedding] is the captured
    data URL itself and whose [face_image_url] is
    [substring(0, 100)] of that data URL followed by three dots: a prefix of
    the data URL of at most 100 characters plus the dots, not an address of
    the image. *)
Theorem handleSubmit_stores_data_url :
  forall pg_message now concurrent db st img,
    valid st img ->
    beneficiaries.card_number_taken db (card_number (formData st)) = false ->
    beneficiaries.card_number_taken (concurrent db) (card_number (formData st))
      = false ->
    exists row,
      fst (handleSubmit pg_message now concurrent db st) = concurrent db ++ [row] /\
      message (snd (handleSubmit pg_message now concurrent db st))
        = Some (mkMessage success "Beneficiary registered successfully!") /\
      beneficiaries.card_number row = card_number (formData st) /\
      beneficiaries.face_embedding row = Some img /\
      beneficiaries.face_image_url row
        = Some (String.substring 0 100 img ++ "...")%string /\
      String.prefix (String.substring 0 100 img) img = true /\
      String.length (String.substring 0 100 img ++ "...")%string
        = Nat.min 100 (String.length img) + 3.
Proof.
  intros pg_message now concurrent db st img V Tdb Tc.
  destruct (valid_guards st img V) as [G1 G2].
  destruct V as (Hi & _).
  unfold handleSubmit. rewrite G1, G2.
  rewrite (select_absent _ _ Tdb). simpl maybeSingle. cbv iota.
  rewrite Hi. rewrite (insert_accepts_free now _ _ img Tc).
  eexists. simpl. repeat split.
  - apply substring_0_prefix.
  - rewrite append_length, substring_0_length. reflexivity.
Qed.

(** C3.  Card numbers stay pairwise distinct in the registry, and it is the
    UNIQUE index of the table that guarantees it.  For a registry whose card
    numbers are distinct, at the time of the [existingCheck] query and at
    the time of the insert:
    - after [handleSubmit] the card numbers are still distinct;
    - a card number that a row of the table carries at the time of the
      insert, whatever the status of that row, is never registered again:
      no row is added and an error message is shown, even when the
      [existingCheck] query had found nothing;
    - the insert statement on its own is refused with the violation of
      [beneficiaries_card_number_key];
    - when the row is already there at the time of the query, the form
      answers that the card number is already registered and writes
      nothing. *)
Theorem card_number_unique_by_constraint :
  forall pg_message now concurrent db st,
    unique_cards db ->
    unique_cards (concurrent db) ->
    unique_cards (fst (handleSubmit pg_message now concurrent db st)) /\
    (forall r,
        In r (concurrent db) ->
        beneficiaries.card_number r = card_number (formData st) ->
        (fst (handleSubmit pg_message now concurrent db st) = db \/
         fst (handleSubmit pg_message now concurrent db st) = concurrent db) /\
        (exists t,
            message (snd (handleSubmit pg_message now concurrent db st))
            = Some (mkMessage error t)) /\
        (forall img,
            insert now (concurrent db) (beneficiaryData (formData st) img)
            = inl (unique_violation "beneficiaries_card_number_key"))) /\
    (forall r img,
        In r db ->
        beneficiaries.card_number r = card_number (formData st) ->
        valid st img ->
        fst (handleSubmit pg_message now concurrent db st) = db /\
        message (snd (handleSubmit pg_message now concurrent db st))
        = Some (mkMessage error "Card number already registered")).
Proof.
  intros pg_message now concurrent db st U Uc. split; [|split].
  - apply handleSubmit_preserves_unique; assumption.
  - intros r Hr Hc.
    assert (T : beneficiaries.card_number_taken (concurrent db)
                  (card_number (formData st)) = true)
      by (apply card_number_taken_true; exists r; auto).
    split; [|split].
    + unfold handleSubmit.
      destruct (js_not_nullable (capturedImage st)); [left; reflexivity|].
      destruct (js_not _ || js_not _); [left; reflexivity|].
      destruct (maybeSingle _); [left; reflexivity|].
      rewrite (insert_rejects_taken now _ _ _ T). right. reflexivity.
    + unfold handleSubmit.
      destruct (js_not_nullable (capturedImage st)); [eexists; reflexivity|].
      destruct (js_not _ || js_not _); [eexists; reflexivity|].
      destruct (maybeSingle _); [eexists; reflexivity|].
      rewrite (insert_rejects_taken now _ _ _ T). eexists. reflexivity.
    + intros img. apply insert_rejects_taken. exact T.
  - intros r img Hr Hc V.
    destruct (valid_guards st img V) as [G1 G2].
    unfold handleSubmit. rewrite G1, G2, <- Hc.
    rewrite (select_present db r U Hr). simpl. auto.
Qed.

(** Every registry built by submissions of the form has distinct card
    numbers. *)
Lemma reachable_unique pg_message db :
  reachable pg_message db -> unique_cards db.
Proof.
  induction 1 as [|now db st _ IH].
  - constructor.
  - apply handleSubmit_preserves_unique; exact IH.
Qed.

Lemma handleSubmit_invalid_rejected_witness :
  invalid Samples.submitted_without_name /\
  fst (handleSubmit Samples.pg_message 200%Z (fun t => t) []
         Samples.submitted_without_name) = [] /\
  formData (snd (handleSubmit Samples.pg_message 200%Z (fun t => t) []
                   Samples.submitted_without_name))
  = Samples.form_without_name.
Proof.
  assert (I : invalid Samples.submitted_without_name)
    by (right; right; right; reflexivity).
  split; [exact I|].
  destruct (handleSubmit_invalid_rejected Samples.pg_message 200%Z
              (fun t => t) [] Samples.submitted_without_name I)
    as (H1 & H2 & _).
  split; [exact H1|exact H2].
Defined.

Lemma handleSubmit_stores_data_url_witness :
  valid Samples.submitted Samples.image /\
  exists row,
    fst (handleSubmit Samples.pg_message 200%Z (fun t => t) []
           Samples.submitted) = [row] /\
    beneficiaries.face_embedding row = Some Samples.image /\
    beneficiaries.face_image_url row
    = Some (String.substring 0 100 Samples.image ++ "...")%string.
Proof.
  assert (V : valid Samples.submitted Samples.image)
    by (repeat split; discriminate).
  split; [exact V|].
  destruct (handleSubmit_stores_data_url Samples.pg_message 200%Z
              (fun t => t) [] Samples.submitted Samples.image V
              eq_refl eq_refl)
    as (row & H1 & _ & _ & H2 & H3 & _).
  exists row. split; [exact H1|split; [exact H2|exact H3]].
Defined.

Lemma card_number_unique_by_constraint_witness :
  unique_cards [] /\
  unique_cards (Samples.racing_client []) /\
  unique_cards (fst (handleSubmit Samples.pg_message 200%Z
                       Samples.racing_client [] Samples.submitted)) /\
  fst (handleSubmit Samples.pg_message 200%Z Samples.racing_client []
         Samples.submitted) = [Samples.suspended_row].
Proof.
  assert (U0 : unique_cards []) by constructor.
  assert (U1 : unique_cards (Samples.racing_client [])).
  { unfold unique_cards. simpl. constructor; [intros []|constructor]. }
  split; [exact U0|]. split; [exact U1|].
  destruct (card_number_unique_by_constraint Samples.pg_message 200%Z
              Samples.racing_client [] Samples.submitted U0 U1)
    as (H1 & _ & _).
  split; [exact H1|reflexivity].
Defined.

End RegistrationFacts.

(** ** Monitoring *)

Module MonitoringFacts.

Import Schema Monitoring.

Lemma button_status_check (status : string) :
  In status button_statuses ->
  duplicate_alerts.status_check (Some status) = true.
Proof.
  intros [<-|[<-|[]]]; reflexivity.
Qed.

Lemma update_alert_patches tbl alertId status now a :
  duplicate_alerts.status_check (Some status) = true ->
  In a tbl -> duplicate_alerts.id a = alertId ->
  In (review_patch status now a) (update_alert tbl alertId status now).
Proof.
  intros C Hin Hid. unfold update_alert. rewrite C.
  apply in_map_iff. exists a. split; [|exact Hin].
  rewrite Hid, Nat.eqb_refl. reflexivity.
Qed.

Lemma update_alert_keeps_others tbl alertId status now a :
  In a tbl -> duplicate_alerts.id a <> alertId ->
  In a (update_alert tbl alertId status now).
Proof.
  intros Hin Hid. unfold update_alert.
  destruct (duplicate_alerts.status_check (Some status)); [|exact Hin].
  apply in_map_iff. exists a. split; [|exact Hin].
  apply Nat.eqb_neq in Hid. rewrite Hid. reflexivity.
Qed.

Lemma update_alert_target tbl alertId status now a' :
  duplicate_alerts.status_check (Some status) = true ->
  In a' (update_alert tbl alertId status now) ->
  duplicate_alerts.id a' = alertId ->
  exists a, In a tbl /\ duplicate_alerts.id a = alertId /\
            a' = review_patch status now a.
Proof.
  intros C Hin Hid. unfold update_alert in Hin. rewrite C in Hin.
  apply in_map_iff in Hin. destruct Hin as (a & E & Ha).
  destruct (Nat.eqb (duplicate_alerts.id a) alertId) eqn:Q.
  - exists a. apply Nat.eqb_eq in Q. auto.
  - subst a'. apply Nat.eqb_neq in Q. contradiction.
Qed.

(** C2, as the claim has it, fails: an alert already resolved is reviewed
    again, and the row is overwritten. *)
Lemma resolved_alert_is_reviewed_again :
  duplicate_alerts.status Samples.resolved_alert = Some "resolved" /\
  db_alerts (fst (handleReviewAlert 2000%Z 7 "dismissed"
        Samples.refreshed_after_dismissal
                    Samples.dashboard_db Samples.dashboard))
  = [review_patch "dismissed" 2000%Z Samples.resolved_alert;
     Samples.pending_alert] /\
  duplicate_alerts.status
    (review_patch "dismissed" 2000%Z Samples.resolved_alert)
  = Some "dismissed" /\
  db_alerts (fst (handleReviewAlert 2000%Z 7 "dismissed"
        Samples.refreshed_after_dismissal
                    Samples.dashboard_db Samples.dashboard))
  <> db_alerts Samples.dashboard_db.
Proof.
  split; [reflexivity|]. split; [reflexivity|]. split; [reflexivity|].
  simpl. intros H. injection H as H. discriminate.
Qed.

(** C2, amended.  [handleReviewAlert] applies the review to the alert with
    the given identifier whatever its present status, leaving the other
    alerts as they are; the restriction to pending alerts is in the
    rendering only, which offers the Resolve and Dismiss buttons exactly for
    the alerts whose loaded status is [pending]. *)
Theorem handleReviewAlert_any_status :
  forall now alertId status refresh db st a,
    In status button_statuses ->
    In a (db_alerts db) ->
    duplicate_alerts.id a = alertId ->
    In (review_patch status now a)
       (db_alerts (fst (handleReviewAlert now alertId status refresh db st))) /\
    duplicate_alerts.status (review_patch status now a) = Some status /\
    (forall b, In b (db_alerts db) -> duplicate_alerts.id b <> alertId ->
               In b (db_alerts (fst (handleReviewAlert now alertId status refresh db st)))) /\
    (forall x, review_buttons_shown x = true <->
               duplicate_alerts.status x = Some "pending").
Proof.
  intros now alertId status refresh db st a Hs Hin Hid. simpl.
  split; [|split; [|split]].
  - apply update_alert_patches; auto using button_status_check.
  - reflexivity.
  - intros b Hb Hne. apply update_alert_keeps_others; assumption.
  - intros x. unfold review_buttons_shown.
    destruct (duplicate_alerts.status x) as [s|]; split; intros H;
      try discriminate.
    + apply String.eqb_eq in H. congruence.
    + injection H as ->. reflexivity.
Qed.

Lemma handleReviewAlert_any_status_witness :
  In "dismissed" button_statuses /\
  In (review_patch "dismissed" 2000%Z Samples.resolved_alert)
     (db_alerts (fst (handleReviewAlert 2000%Z 7 "dismissed"
           Samples.refreshed_after_dismissal
                        Samples.dashboard_db Samples.dashboard))).
Proof.
  assert (B : In "dismissed" button_statuses) by (right; left; reflexivity).
  split; [exact B|].
  exact (proj1 (handleReviewAlert_any_status 2000%Z 7 "dismissed"
        Samples.refreshed_after_dismissal
                  Samples.dashboard_db Samples.dashboard
                  Samples.resolved_alert B (or_introl eq_refl) eq_refl)).
Defined.

(** C9.  A review made with the buttons of the dashboard writes the constant
    ['Admin'] into [reviewed_by] and the time of the call into [reviewed_at]
    of the alert concerned: [handleReviewAlert] receives the identifier and
    the new status only, so who reviews has no way into the row. *)
Theorem handleReviewAlert_reviewed_by_Admin :
  forall now alertId status refresh db st,
    In status button_statuses ->
    (forall a, In a (db_alerts db) -> duplicate_alerts.id a = alertId ->
       exists a',
         In a' (db_alerts (fst (handleReviewAlert now alertId status refresh db st))) /\
         duplicate_alerts.id a' = alertId) /\
    (forall a',
       In a' (db_alerts (fst (handleReviewAlert now alertId status refresh db st))) ->
       duplicate_alerts.id a' = alertId ->
       duplicate_alerts.reviewed_by a' = Some "Admin" /\
       duplicate_alerts.reviewed_at a' = Some now /\
       duplicate_alerts.status a' = Some status).
Proof.
  intros now alertId status refresh db st Hs. simpl. split.
  - intros a Hin Hid. exists (review_patch status now a). split.
    + apply update_alert_patches; auto using button_status_check.
    + exact Hid.
  - intros a' Hin Hid.
    destruct (update_alert_target _ _ _ _ _ (button_status_check _ Hs) Hin Hid)
      as (a & _ & _ & ->).
    repeat split.
Qed.

Lemma handleReviewAlert_reviewed_by_Admin_witness :
  In "resolved" button_statuses /\
  forall a',
    In a' (db_alerts (fst (handleReviewAlert 2000%Z 8 "resolved"
          Samples.refreshed_after_resolution
                             Samples.dashboard_db Samples.dashboard))) ->
    duplicate_alerts.id a' = 8 ->
    duplicate_alerts.reviewed_by a' = Some "Admin" /\
    duplicate_alerts.reviewed_at a' = Some 2000%Z /\
    duplicate_alerts.status a' = Some "resolved".
Proof.
  assert (B : In "resolved" button_statuses) by (left; reflexivity).
  split; [exact B|].
  exact (proj2 (handleReviewAlert_reviewed_by_Admin 2000%Z 8 "resolved"
        Samples.refreshed_after_resolution
                  Samples.dashboard_db Samples.dashboard B)).
Defined.

End MonitoringFacts.

(** ** Schema and configuration *)

Module SchemaFacts.

Import Schema.

Lemma sql_in_some (s : string) (l : list string) :
  sql_in (Some s) l = true <-> In s l.
Proof.
  simpl. rewrite existsb_exists. split.
  - intros (x & Hx & E). apply String.eqb_eq in E. subst. exact Hx.
  - intros H. exists s. split; [exact H|apply String.eqb_refl].
Qed.

(** C4, as the claim has it, fails: a row whose status is [pending] passes
    every CHECK constraint of [transactions], and [pending] is a member of
    the status union of the [Transaction] interface. *)
Lemma pending_transaction_admitted :
  transactions.checks Samples.pending_transaction = true /\
  transactions.status Samples.pending_transaction = Some "pending" /\
  ~ In "pending" ["success"; "failed"; "flagged"] /\
  Types.TransactionStatus_text Types.pending = "pending".
Proof.
  split; [reflexivity|]. split; [reflexivity|]. split; [|reflexivity].
  simpl. intros [H|[H|[H|[]]]]; discriminate.
Qed.

(** C4, amended.  The status of a transaction, when it is not NULL, is one
    of exactly four values, [success], [failed], [flagged] and [pending]:
    these are the texts the CHECK constraint of the column lets through, and
    they are the values of the status union of the [Transaction]
    interface. *)
Theorem transaction_status_four_values :
  (forall s : string,
      transactions.status_check (Some s) = true <->
      In s ["success"; "failed"; "flagged"; "pending"]) /\
  (forall s : string,
      In s ["success"; "failed"; "flagged"; "pending"] <->
      exists t : Types.TransactionStatus, Types.TransactionStatus_text t = s).
Proof.
  split.
  - intros s. apply sql_in_some.
  - intros s. split.
    + intros [<-|[<-|[<-|[<-|[]]]]];
        [exists Types.success|exists Types.failed
        |exists Types.flagged|exists Types.pending]; reflexivity.
    + intros ([] & <-); simpl; auto.
Qed.

End SchemaFacts.

(** ** The engine *)

Module EngineFacts.

Import Engine.

Lemma attach_status_absent (l : list Transaction) (i : uuid)
    (s : TransactionStatus) :
  ~ In i (map tx_id l) -> attach_status l i s = l.
Proof.
  unfold attach_status. induction l as [|t l IH]; simpl; intros H.
  - reflexivity.
  - destruct (Nat.eqb (tx_id t) i) eqn:E.
    + apply Nat.eqb_eq in E. exfalso. apply H. left. exact E.
    + f_equal. apply IH. intros Hin. apply H. right. exact Hin.
Qed.

Lemma attach_status_appended (l : list Transaction) (t : Transaction)
    (s : TransactionStatus) :
  ~ In (tx_id t) (map tx_id l) ->
  attach_status (l ++ [t]) (tx_id t) s = l ++ [with_status t s].
Proof.
  intros H. pose proof (attach_status_absent l (tx_id t) s H) as A.
  unfold attach_status in *. rewrite map_app, A. simpl.
  rewrite Nat.eqb_refl. reflexivity.
Qed.

Lemma rejected_of_lt (cfg : Configuration) (c : Q) :
  (c < FACE_MATCH_THRESHOLD cfg)%Q ->
  face_accepted cfg (Some c) = false /\ face_rejected cfg (Some c) = true.
Proof.
  intros H. simpl.
  destruct (Qle_bool (FACE_MATCH_THRESHOLD cfg) c) eqn:E.
  - apply Qle_bool_iff in E. exfalso. exact (Qlt_not_le _ _ H E).
  - auto.
Qed.

Lemma accepted_of_le (cfg : Configuration) (c : Q) :
  (FACE_MATCH_THRESHOLD cfg <= c)%Q ->
  face_accepted cfg (Some c) = true.
Proof.
  intros H. simpl. apply Qle_bool_iff. exact H.
Qed.

(** The record written for an attempt. *)
Lemma verify_no_cycle cfg compare persists now st req :
  resolve_active_cycle (cycles st) = None ->
  verify cfg compare persists now st req = (st, ConfigurationError).
Proof.
  intros H. unfold verify. rewrite H. reflexivity.
Qed.

Lemma verify_unknown_card cfg compare persists now st req cyc :
  resolve_active_cycle (cycles st) = Some cyc ->
  lookup (registry st) (req_card_number req) = None ->
  verify cfg compare persists now st req
  = (mkStore (registry st) (cycles st)
       (ledger st
        ++ [mkTransaction (Schema.fresh_uuid (map tx_id (ledger st))) None
              (req_card_number req) (req_shop_id req) (cycle_key cyc) None
              failed now])
       (alert_store st),
     Responded (mkResult false failed None [] "Card not registered")).
Proof.
  intros Hc Hl. unfold verify. rewrite Hc, Hl. reflexivity.
Qed.

Lemma verify_known_card cfg compare persists now st req cyc b :
  resolve_active_cycle (cycles st) = Some cyc ->
  lookup (registry st) (req_card_number req) = Some b ->
  forall conf cur raised final,
    conf = compare (reference_face_embedding b) (face_sample req) ->
    cur = mkTransaction (Schema.fresh_uuid (map tx_id (ledger st)))
            (Some (beneficiary_key b)) (req_card_number req)
            (req_shop_id req) (cycle_key cyc) conf
            (if face_accepted cfg conf then success else failed) now ->
    raised = evaluate cfg cur (ledger st ++ [cur]) (Some b) ->
    final = derive_status cfg (Some b) conf raised ->
    fst (verify cfg compare persists now st req)
    = mkStore (registry st) (cycles st)
        (ledger st ++ [with_status cur final])
        (persist_alerts persists (tx_id cur) (alert_store st) raised) /\
    outcome_result (snd (verify cfg compare persists now st req))
    = Some (mkResult (face_accepted cfg conf) final conf raised
              (result_message conf final)).
Proof.
  intros Hc Hl conf cur raised final -> -> -> ->.
  unfold verify. rewrite Hc, Hl. unfold append. cbv zeta.
  split.
  - cbn [fst]. f_equal.
    apply (attach_status_appended (ledger st)
             (mkTransaction (Schema.fresh_uuid (map tx_id (ledger st)))
                _ _ _ _ _ _ _)).
    apply fresh_uuid_fresh.
  - cbn [snd]. destruct (map alert_type _); reflexivity.
Qed.

(** *** What the rules raise *)

Lemma evaluate_rejected cfg cur history b c :
  face_match_confidence cur = Some c ->
  (c < FACE_MATCH_THRESHOLD cfg)%Q ->
  evaluate cfg cur history (Some b)
  = [mkAlertSpec different_person critical
       ("Face does not match the beneficiary registered for card "
        ++ tx_card_number cur)
       None].
Proof.
  intros Hc Hlt. destruct (rejected_of_lt cfg c Hlt) as [A R].
  unfold evaluate, rule_different_person, rule_duplicate_location,
    rule_multiple_attempts, rule_suspicious_timing.
  rewrite Hc, A, R. reflexivity.
Qed.

Lemma evaluate_unavailable cfg cur history b :
  face_match_confidence cur = None ->
  evaluate cfg cur history (Some b) = [].
Proof.
  intros Hc.
  unfold evaluate, rule_different_person, rule_duplicate_location,
    rule_multiple_attempts, rule_suspicious_timing.
  rewrite Hc. reflexivity.
Qed.

Lemma set_aside_never cur b t : set_aside cur b t = false.
Proof.
  unfold set_aside.
  destruct (Nat.eqb (shop_id t) (shop_id cur));
    rewrite ?andb_false_r; reflexivity.
Qed.

Lemma suspicious_alerts_of_evaluate cfg cur history ben :
  alerts_of_type suspicious_timing (evaluate cfg cur history ben)
  = rule_suspicious_timing cfg cur history ben.
Proof.
  unfold evaluate, alerts_of_type. rewrite !filter_app.
  assert (R1 : filter (fun a => AlertType_eqb (alert_type a) suspicious_timing)
                 (rule_different_person cfg cur ben) = []).
  { unfold rule_different_person. destruct ben; [|reflexivity].
    destruct (face_rejected _ _); reflexivity. }
  assert (R2 : filter (fun a => AlertType_eqb (alert_type a) suspicious_timing)
                 (rule_duplicate_location cfg cur history ben) = []).
  { unfold rule_duplicate_location. destruct ben; [|reflexivity].
    destruct (face_accepted _ _); [|reflexivity].
    destruct (latest _); reflexivity. }
  assert (R3 : filter (fun a => AlertType_eqb (alert_type a) suspicious_timing)
                 (rule_multiple_attempts cfg cur history ben) = []).
  { unfold rule_multiple_attempts. destruct ben; [|reflexivity].
    destruct (face_accepted _ _); [|reflexivity].
    cbv zeta. destruct (Nat.leb _ _); reflexivity. }
  rewrite R1, R2, R3. simpl.
  unfold rule_suspicious_timing. destruct ben; [|reflexivity].
  destruct (face_accepted _ _); [|reflexivity].
  destruct (nearest _ _); reflexivity.
Qed.

(** [nearest] returns a conflict at minimal distance in time. *)
Lemma nearest_fold cur (l : list Transaction) :
  forall acc r,
    fold_left (fun best t =>
                 match best with
                 | None => Some t
                 | Some b =>
                     if (distance cur t <=? distance cur b)%Z
                     then Some t else Some b
                 end) l acc = Some r ->
    (In r l \/ acc = Some r) /\
    (forall t, In t l -> (distance cur r <= distance cur t)%Z) /\
    (forall a, acc = Some a -> (distance cur r <= distance cur a)%Z).
Proof.
  induction l as [|t l IH]; simpl; intros acc r H.
  - subst acc. split; [right; reflexivity|]. split; [intros t []|].
    intros a E. injection E as <-. lia.
  - apply IH in H. destruct H as (H1 & H2 & H3).
    destruct acc as [b|].
    + destruct (distance cur t <=? distance cur b)%Z eqn:E.
      * apply Z.leb_le in E. specialize (H3 t eq_refl).
        split; [destruct H1 as [H1|H1]; [left; right; exact H1|]|].
        { injection H1 as <-. left. left. reflexivity. }
        split.
        { intros u [<-|Hu]; [exact H3|apply H2; exact Hu]. }
        { intros a Ea. injection Ea as <-. lia. }
      * apply Z.leb_gt in E. specialize (H3 b eq_refl).
        split; [destruct H1 as [H1|H1]; [left; right; exact H1|right; exact H1]|].
        split.
        { intros u [<-|Hu]; [lia|apply H2; exact Hu]. }
        { intros a Ea. injection Ea as <-. exact H3. }
    + specialize (H3 t eq_refl).
      split; [destruct H1 as [H1|H1]; [left; right; exact H1|]|].
      { injection H1 as <-. left. left. reflexivity. }
      split.
      { intros u [<-|Hu]; [exact H3|apply H2; exact Hu]. }
      { intros a Ea. discriminate. }
Qed.

Lemma nearest_minimal cur l p :
  nearest cur l = Some p ->
  In p l /\ forall t, In t l -> (distance cur p <= distance cur t)%Z.
Proof.
  unfold nearest, pick. intros H.
  apply nearest_fold in H. destruct H as ([H|H] & H2 & _).
  - split; assumption.
  - discriminate.
Qed.

(** *** Rule 1 *)

(** C1.  When the card number resolves to a beneficiary and the comparator
    returns a confidence strictly below [FACE_MATCH_THRESHOLD], the
    transaction written for the attempt has status [failed], whatever the
    ledger held before, and the alerts raised are exactly one
    [different_person] alert of severity [critical]: it is raised on the
    very first such attempt as on any later one. *)
Theorem rule1_precedence :
  forall cfg compare persists now st req b cyc c,
    resolve_active_cycle (cycles st) = Some cyc ->
    lookup (registry st) (req_card_number req) = Some b ->
    compare (reference_face_embedding b) (face_sample req) = Some c ->
    (c < FACE_MATCH_THRESHOLD cfg)%Q ->
    exists tx r,
      ledger (fst (verify cfg compare persists now st req)) = ledger st ++ [tx] /\
      tx_card_number tx = req_card_number req /\
      beneficiary_id tx = Some (beneficiary_key b) /\
      tx_status tx = failed /\
      outcome_result (snd (verify cfg compare persists now st req)) = Some r /\
      accepted r = false /\
      transaction_status r = failed /\
      alerts r
      = [mkAlertSpec different_person critical
           ("Face does not match the beneficiary registered for card "
            ++ req_card_number req)
           None].
Proof.
  intros cfg compare persists now st req b cyc c Hc Hl Hcmp Hlt.
  destruct (rejected_of_lt cfg c Hlt) as [A _].
  set (cur := mkTransaction (Schema.fresh_uuid (map tx_id (ledger st)))
                (Some (beneficiary_key b)) (req_card_number req)
                (req_shop_id req) (cycle_key cyc) (Some c)
                (if face_accepted cfg (Some c) then success else failed) now).
  set (raised := [mkAlertSpec different_person critical
                    ("Face does not match the beneficiary registered for card "
                     ++ req_card_number req) None]).
  assert (E : raised = evaluate cfg cur (ledger st ++ [cur]) (Some b)).
  { symmetry. apply evaluate_rejected with (c := c); [reflexivity|exact Hlt]. }
  assert (S : failed = derive_status cfg (Some b) (Some c) raised).
  { unfold derive_status. rewrite A. reflexivity. }
  destruct (verify_known_card cfg compare persists now st req cyc b Hc Hl
              (Some c) cur raised failed (eq_sym Hcmp) eq_refl E S) as [F R].
  exists (with_status cur failed).
  exists (mkResult (face_accepted cfg (Some c)) failed (Some c) raised
            (result_message (Some c) failed)).
  rewrite F, R. cbn [ledger accepted transaction_status alerts].
  rewrite A. repeat split.
Qed.

Lemma rule1_precedence_witness :
  exists tx r,
    ledger (fst (verify default_configuration Samples.comparator
                   Samples.all_persisted 3000000%Z Samples.store
                   Samples.impostor_at_shop1)) = [tx] /\
    tx_status tx = failed /\
    outcome_result (snd (verify default_configuration Samples.comparator
                           Samples.all_persisted 3000000%Z Samples.store
                           Samples.impostor_at_shop1)) = Some r /\
    map alert_type (alerts r) = [different_person] /\
    map severity (alerts r) = [critical].
Proof.
  destruct (rule1_precedence default_configuration Samples.comparator
              Samples.all_persisted 3000000%Z Samples.store
              Samples.impostor_at_shop1 Samples.beneficiary Samples.december
              23%Q eq_refl eq_refl eq_refl eq_refl)
    as (tx & r & H1 & _ & _ & H2 & H3 & _ & _ & H4).
  exists tx, r. rewrite H4. repeat split; assumption.
Defined.

(** *** Audit completeness *)

(** C6, as the claim has it, fails: with no active distribution cycle the
    request ends in a configuration error and the ledger is left as it
    was. *)
Lemma verify_without_cycle_appends_nothing :
  resolve_active_cycle (cycles Samples.store_without_active_cycle) = None /\
  snd (verify default_configuration Samples.comparator Samples.all_persisted
         3000000%Z Samples.store_without_active_cycle Samples.holder_at_shop1)
  = ConfigurationError /\
  ledger (fst (verify default_configuration Samples.comparator
                 Samples.all_persisted 3000000%Z
                 Samples.store_without_active_cycle Samples.holder_at_shop1))
  = ledger Samples.store_without_active_cycle /\
  forall tx,
    ledger (fst (verify default_configuration Samples.comparator
                   Samples.all_persisted 3000000%Z
                   Samples.store_without_active_cycle Samples.holder_at_shop1))
    <> ledger Samples.store_without_active_cycle ++ [tx].
Proof.
  split; [reflexivity|]. split; [reflexivity|]. split; [reflexivity|].
  intros tx H. discriminate H.
Qed.

(** C6, amended.  Whenever the active distribution cycle is resolved, a
    call of [verify] appends exactly one transaction to the ledger, for the
    card number of the request and in that cycle.  For an unknown card it is
    a [failed] transaction without beneficiary, the alerts are left alone
    and the answer is that the card is not registered; when the comparator
    is out of service it is a [failed] transaction without confidence and no
    alert is raised. *)
Theorem verify_appends_one_transaction :
  forall cfg compare persists now st req cyc,
    resolve_active_cycle (cycles st) = Some cyc ->
    exists tx,
      ledger (fst (verify cfg compare persists now st req)) = ledger st ++ [tx] /\
      tx_card_number tx = req_card_number req /\
      cycle_id tx = cycle_key cyc /\
      created_at tx = now /\
      (lookup (registry st) (req_card_number req) = None ->
       beneficiary_id tx = None /\
       tx_status tx = failed /\
       alert_store (fst (verify cfg compare persists now st req))
       = alert_store st /\
       snd (verify cfg compare persists now st req)
       = Responded (mkResult false failed None [] "Card not registered")) /\
      (forall b,
          lookup (registry st) (req_card_number req) = Some b ->
          compare (reference_face_embedding b) (face_sample req) = None ->
          beneficiary_id tx = Some (beneficiary_key b) /\
          tx_status tx = failed /\
          face_match_confidence tx = None /\
          alert_store (fst (verify cfg compare persists now st req))
          = alert_store st /\
          exists r,
            outcome_result (snd (verify cfg compare persists now st req))
            = Some r /\
            transaction_status r = failed /\
            confidence r = None /\
            alerts r = []).
Proof.
  intros cfg compare persists now st req cyc Hc.
  destruct (lookup (registry st) (req_card_number req)) as [b|] eqn:Hl.
  - destruct (verify_known_card cfg compare persists now st req cyc b Hc Hl
                _ _ _ _ eq_refl eq_refl eq_refl eq_refl) as [F R].
    eexists. rewrite F. cbn [ledger alert_store].
    split; [reflexivity|]. split; [reflexivity|]. split; [reflexivity|].
    split; [reflexivity|]. split; [discriminate|].
    intros b' Hb Hcmp. injection Hb as <-.
    rewrite R. rewrite Hcmp.
    rewrite evaluate_unavailable by reflexivity.
    cbn. repeat split. eexists. repeat split.
  - rewrite (verify_unknown_card cfg compare persists now st req cyc Hc Hl).
    eexists. cbn [fst snd ledger alert_store].
    split; [reflexivity|]. split; [reflexivity|]. split; [reflexivity|].
    split; [reflexivity|].
    split; [intros _; repeat split|intros b' Hb; discriminate].
Qed.

Lemma verify_appends_one_transaction_witness :
  resolve_active_cycle (cycles Samples.store) = Some Samples.december /\
  exists tx,
    ledger (fst (verify default_configuration Samples.comparator
                   Samples.all_persisted 3000000%Z Samples.store
                   Samples.unknown_card_at_shop1)) = [tx] /\
    tx_card_number tx = "BPL999".
Proof.
  split; [reflexivity|].
  destruct (verify_appends_one_transaction default_configuration
              Samples.comparator Samples.all_persisted 3000000%Z
              Samples.store Samples.unknown_card_at_shop1 Samples.december
              eq_refl)
    as (tx & H1 & H2 & _).
  exists tx. split; [exact H1|exact H2].
Defined.

(** *** The threshold *)



(** *** Rule 4 *)

Lemma insert_asc_in (t x : Transaction) (l : list Transaction) :
  In x (insert_asc t l) <-> x = t \/ In x l.
Proof.
  induction l as [|u l IH]; simpl.
  - split; intros [H|H]; auto.
  - destruct (created_at t <? created_at u)%Z; simpl.
    + split; intros [H|H]; auto.
    + rewrite IH. split; intros [H|[H|H]]; auto.
Qed.

Lemma chronological_in (x : Transaction) (l : list Transaction) :
  In x (chronological l) <-> In x l.
Proof.
  unfold chronological. induction l as [|u l IH]; simpl.
  - reflexivity.
  - rewrite insert_asc_in, IH. split; intros [H|H]; auto.
Qed.

Lemma timing_conflicts_in cfg cur history b t :
  In t (timing_conflicts cfg cur history b) <->
  In t history /\ tx_card_number t = tx_card_number cur /\
  cycle_id t = cycle_id cur /\ tx_id t <> tx_id cur /\
  within_window cfg cur t = true.
Proof.
  unfold timing_conflicts, excluding, findByCardInCycle.
  rewrite !filter_In, chronological_in, filter_In, set_aside_never.
  rewrite andb_true_r, andb_true_iff, negb_true_iff.
  rewrite String.eqb_eq, Nat.eqb_eq, Nat.eqb_neq. tauto.
Qed.

Lemma pick_keeps (better : Transaction -> Transaction -> bool)
    (l : list Transaction) (a : Transaction) :
  fold_left (fun best t =>
               match best with
               | None => Some t
               | Some b => if better t b then Some t else Some b
               end) l (Some a) <> None.
Proof.
  revert a. induction l as [|t l IH]; simpl; intros a.
  - discriminate.
  - destruct (better t a); apply IH.
Qed.

Lemma nearest_none cur (l : list Transaction) :
  nearest cur l = None -> l = [].
Proof.
  unfold nearest, pick. destruct l as [|t l]; [reflexivity|]. simpl.
  intros H. exfalso. exact (pick_keeps _ l t H).
Qed.

(** What rule 4 raises for an accepted attempt, in terms of the ledger the
    attempt finds. *)
Lemma verify_suspicious_timing cfg compare persists now st req b cyc c :
  resolve_active_cycle (cycles st) = Some cyc ->
  lookup (registry st) (req_card_number req) = Some b ->
  compare (reference_face_embedding b) (face_sample req) = Some c ->
  (FACE_MATCH_THRESHOLD cfg <= c)%Q ->
  ((exists t,
       In t (ledger st) /\ tx_card_number t = req_card_number req /\
       cycle_id t = cycle_key cyc /\
       (Z.abs (now - created_at t)
        <= DUPLICATE_TIME_WINDOW_HOURS cfg * 3600)%Z) ->
   exists p,
     In p (ledger st) /\ tx_card_number p = req_card_number req /\
     cycle_id p = cycle_key cyc /\
     alerts_of_type suspicious_timing
       (outcome_alerts (snd (verify cfg compare persists now st req)))
     = [mkAlertSpec suspicious_timing medium
          "Another attempt for this card inside the time window"
          (Some (tx_id p))] /\
     forall t,
       In t (ledger st) -> tx_card_number t = req_card_number req ->
       cycle_id t = cycle_key cyc ->
       (Z.abs (now - created_at p) <= Z.abs (now - created_at t))%Z) /\
  ((forall t,
       In t (ledger st) -> tx_card_number t = req_card_number req ->
       cycle_id t = cycle_key cyc ->
       (DUPLICATE_TIME_WINDOW_HOURS cfg * 3600
        < Z.abs (now - created_at t))%Z) ->
   alerts_of_type suspicious_timing
     (outcome_alerts (snd (verify cfg compare persists now st req)))
   = []).
Proof.
  intros Hc Hl Hcmp Ha.
  destruct (verify_known_card cfg compare persists now st req cyc b Hc Hl
              _ _ _ _ eq_refl eq_refl eq_refl eq_refl) as [_ R].
  unfold outcome_alerts. rewrite R. cbn [alerts].
  rewrite suspicious_alerts_of_evaluate.
  rewrite Hcmp. rewrite (accepted_of_le cfg c Ha).
  set (cur := mkTransaction _ _ _ _ _ _ _ _).
  assert (Fresh : forall t, In t (ledger st) -> tx_id t <> tx_id cur).
  { intros t Ht E. apply (fresh_uuid_fresh (map tx_id (ledger st))).
    cbn [tx_id cur] in E. rewrite <- E. apply in_map. exact Ht. }
  assert (Prior : forall t,
             In t (timing_conflicts cfg cur (ledger st ++ [cur]) b) <->
             In t (ledger st) /\ tx_card_number t = req_card_number req /\
             cycle_id t = cycle_key cyc /\ within_window cfg cur t = true).
  { intros t. rewrite timing_conflicts_in. cbn [tx_card_number cycle_id cur].
    split.
    - intros (Hin & H1 & H2 & H3 & H4). repeat split; trivial.
      apply in_app_or in Hin. destruct Hin as [Hin|[<-|[]]]; [exact Hin|].
      exfalso. apply H3. reflexivity.
    - intros (Hin & H1 & H2 & H4). repeat split; trivial.
      + apply in_or_app. left. exact Hin.
      + apply Fresh. exact Hin. }
  assert (W : forall t, within_window cfg cur t = true <->
                        (Z.abs (now - created_at t)
                         <= DUPLICATE_TIME_WINDOW_HOURS cfg * 3600)%Z).
  { intros t. unfold within_window, distance. cbn [created_at cur].
    apply Z.leb_le. }
  unfold rule_suspicious_timing.
  replace (face_accepted cfg (face_match_confidence cur)) with true
    by (symmetry; exact (accepted_of_le cfg c Ha)).
  split.
  - intros (t0 & T1 & T2 & T3 & T4).
    assert (First : In t0 (timing_conflicts cfg cur (ledger st ++ [cur]) b))
      by (apply Prior; repeat split; trivial; apply W; exact T4).
    destruct (nearest cur (timing_conflicts cfg cur (ledger st ++ [cur]) b))
      as [p|] eqn:N.
    + apply nearest_minimal in N. destruct N as [N1 N2].
      pose proof (proj1 (Prior p) N1) as (P1 & P2 & P3 & P4).
      exists p. repeat split; trivial.
      intros t Ht Hcard Hcyc. apply W in P4.
      destruct (within_window cfg cur t) eqn:E.
      * specialize (N2 t (proj2 (Prior t)
                            (conj Ht (conj Hcard (conj Hcyc E))))).
        unfold distance in N2. cbn [created_at cur] in N2. exact N2.
      * unfold within_window, distance in E. cbn [created_at cur] in E.
        apply Z.leb_gt in E. lia.
    + apply nearest_none in N. rewrite N in First. contradiction.
  - intros Far.
    destruct (timing_conflicts cfg cur (ledger st ++ [cur]) b) as [|t l] eqn:E;
      [reflexivity|].
    exfalso.
    assert (Hin : In t (t :: l)) by (left; reflexivity).
    apply Prior in Hin. destruct Hin as (H1 & H2 & H3 & H4).
    apply W in H4. specialize (Far t H1 H2 H3). lia.
Qed.

(** C7, as the claim has it, fails.  Two accepted attempts for a card two
    hours apart, the cycle of the first being completed and another made
    active in between: the second raises no [suspicious_timing] alert.  And
    two accepted attempts thirty hours apart, with a third ten hours after
    the first: the last raises a [suspicious_timing] alert, against the
    attempt in between. *)
Lemma timing_alert_depends_on_cycle_and_history :
  (option_map accepted
     (outcome_result
        (snd (verify default_configuration Samples.comparator
                Samples.all_persisted 2590000%Z Samples.store_in_november
                Samples.holder_at_shop1))) = Some true /\
   option_map accepted
     (outcome_result
        (snd (verify default_configuration Samples.comparator
                Samples.all_persisted (2590000 + 2 * 3600)%Z
                Samples.in_december Samples.holder_at_shop2))) = Some true /\
   map tx_card_number (ledger Samples.in_december) = ["BPL001"] /\
   alerts_of_type suspicious_timing
     (outcome_alerts
        (snd (verify default_configuration Samples.comparator
                Samples.all_persisted (2590000 + 2 * 3600)%Z
                Samples.in_december Samples.holder_at_shop2))) = []) /\
  (map created_at (ledger Samples.after_second_attempt)
   = [3000000%Z; 3036000%Z] /\
   option_map accepted
     (outcome_result
        (snd (verify default_configuration Samples.comparator
                Samples.all_persisted (3000000 + 30 * 3600)%Z
                Samples.after_second_attempt Samples.holder_at_shop2)))
   = Some true /\
   alerts_of_type suspicious_timing
     (outcome_alerts
        (snd (verify default_configuration Samples.comparator
                Samples.all_persisted (3000000 + 30 * 3600)%Z
                Samples.after_second_attempt Samples.holder_at_shop2)))
   = [mkAlertSpec suspicious_timing medium
        "Another attempt for this card inside the time window" (Some 2)]).
Proof.
  split; repeat split; vm_compute; reflexivity.
Qed.

(** C7, amended.  With the window at its default of 24 hours: an accepted
    attempt writes a transaction for its card in the active cycle.  A later
    accepted attempt for the same card, made while the same cycle is active
    on a ledger that still holds that transaction, whatever else was
    written in between, raises two hours after the first exactly one
    [suspicious_timing] alert, of severity [medium], whose
    [previous_transaction_id] is a transaction of the card in the cycle
    that no other such transaction is nearer to in time: the first attempt
    when it is the only one.  Thirty hours after the first it raises no
    [suspicious_timing] alert, provided every transaction of the card in
    the cycle is more than 24 hours away, as the first attempt is. *)
Theorem suspicious_timing_same_cycle :
  forall cfg compare persists st b cyc req1 c1 t0,
    DUPLICATE_TIME_WINDOW_HOURS cfg = Config.DUPLICATE_TIME_WINDOW_HOURS ->
    resolve_active_cycle (cycles st) = Some cyc ->
    lookup (registry st) (req_card_number req1) = Some b ->
    compare (reference_face_embedding b) (face_sample req1) = Some c1 ->
    (FACE_MATCH_THRESHOLD cfg <= c1)%Q ->
    exists tx1,
      ledger (fst (verify cfg compare persists t0 st req1))
      = ledger st ++ [tx1] /\
      tx_card_number tx1 = req_card_number req1 /\
      cycle_id tx1 = cycle_key cyc /\
      created_at tx1 = t0 /\
      tx_status tx1 <> failed /\
      forall st2 b2 cyc2 req2 c2,
        In tx1 (ledger st2) ->
        resolve_active_cycle (cycles st2) = Some cyc2 ->
        cycle_key cyc2 = cycle_key cyc ->
        req_card_number req2 = req_card_number req1 ->
        lookup (registry st2) (req_card_number req2) = Some b2 ->
        compare (reference_face_embedding b2) (face_sample req2) = Some c2 ->
        (FACE_MATCH_THRESHOLD cfg <= c2)%Q ->
        (exists p,
            In p (ledger st2) /\
            tx_card_number p = req_card_number req1 /\
            cycle_id p = cycle_key cyc /\
            alerts_of_type suspicious_timing
              (outcome_alerts
                 (snd (verify cfg compare persists (t0 + 2 * 3600)%Z st2 req2)))
            = [mkAlertSpec suspicious_timing medium
                 "Another attempt for this card inside the time window"
                 (Some (tx_id p))] /\
            (forall t,
                In t (ledger st2) ->
                tx_card_number t = req_card_number req1 ->
                cycle_id t = cycle_key cyc ->
                (Z.abs (t0 + 2 * 3600 - created_at p)
                 <= Z.abs (t0 + 2 * 3600 - created_at t))%Z) /\
            ((forall t,
                 In t (ledger st2) ->
                 tx_card_number t = req_card_number req1 ->
                 cycle_id t = cycle_key cyc -> t = tx1) ->
             p = tx1)) /\
        ((forall t,
             In t (ledger st2) ->
             tx_card_number t = req_card_number req1 ->
             cycle_id t = cycle_key cyc ->
             (24 * 3600 < Z.abs (t0 + 30 * 3600 - created_at t))%Z) ->
         alerts_of_type suspicious_timing
           (outcome_alerts
              (snd (verify cfg compare persists (t0 + 30 * 3600)%Z st2 req2)))
         = []).
Proof.
  intros cfg compare persists st b cyc req1 c1 t0 Hw Hc Hl Hc1 Ha1.
  unfold Config.DUPLICATE_TIME_WINDOW_HOURS in Hw.
  destruct (verify_known_card cfg compare persists t0 st req1 cyc b Hc Hl
              _ _ _ _ eq_refl eq_refl eq_refl eq_refl) as [F1 _].
  eexists. rewrite F1. cbn [ledger]. split; [reflexivity|].
  split; [reflexivity|]. split; [reflexivity|]. split; [reflexivity|].
  split.
  { cbn [tx_status with_status]. unfold derive_status.
    rewrite Hc1, (accepted_of_le cfg c1 Ha1).
    destruct (existsb _ _); discriminate. }
  set (tx1 := with_status _ _).
  assert (T1 : tx_card_number tx1 = req_card_number req1) by reflexivity.
  assert (T2 : cycle_id tx1 = cycle_key cyc) by reflexivity.
  assert (T3 : created_at tx1 = t0) by reflexivity.
  clearbody tx1.
  intros st2 b2 cyc2 req2 c2 Hin Hc2 Hk Hreq Hl2 Hcmp2 Ha2.
  destruct (verify_suspicious_timing cfg compare persists (t0 + 2 * 3600)%Z
              st2 req2 b2 cyc2 c2 Hc2 Hl2 Hcmp2 Ha2) as [Inside _].
  destruct (verify_suspicious_timing cfg compare persists (t0 + 30 * 3600)%Z
              st2 req2 b2 cyc2 c2 Hc2 Hl2 Hcmp2 Ha2) as [_ Outside].
  rewrite Hreq, Hk, Hw in Inside, Outside.
  split.
  - destruct Inside as (p & P1 & P2 & P3 & P4 & P5).
    { exists tx1. repeat split; trivial. rewrite T3. lia. }
    exists p. repeat split; trivial.
    intros Only. apply Only; assumption.
  - exact Outside.
Qed.

Lemma suspicious_timing_same_cycle_witness :
  DUPLICATE_TIME_WINDOW_HOURS default_configuration
  = Config.DUPLICATE_TIME_WINDOW_HOURS /\
  alerts_of_type suspicious_timing
    (outcome_alerts
       (snd (verify default_configuration Samples.comparator
               Samples.all_persisted (3000000 + 2 * 3600)%Z
               Samples.after_first_attempt Samples.holder_at_shop2)))
  = [mkAlertSpec suspicious_timing medium
       "Another attempt for this card inside the time window" (Some 1)] /\
  alerts_of_type suspicious_timing
    (outcome_alerts
       (snd (verify default_configuration Samples.comparator
               Samples.all_persisted (3000000 + 30 * 3600)%Z
               Samples.after_first_attempt Samples.holder_at_shop2)))
  = [].
Proof.
  assert (A : (FACE_MATCH_THRESHOLD default_configuration <= 91)%Q)
    by (unfold Qle; simpl; lia).
  split; [reflexivity|].
  destruct (suspicious_timing_same_cycle default_configuration
              Samples.comparator Samples.all_persisted Samples.store
              Samples.beneficiary Samples.december Samples.holder_at_shop1
              91%Q 3000000%Z eq_refl eq_refl eq_refl eq_refl A)
    as (tx1 & L & T1 & T2 & T3 & _ & Later).
  change (ledger Samples.after_first_attempt = [] ++ [tx1]) in L.
  assert (Only : forall t, In t (ledger Samples.after_first_attempt) -> t = tx1).
  { intros t Ht. rewrite L in Ht. destruct Ht as [<-|[]]. reflexivity. }
  assert (In1 : In tx1 (ledger Samples.after_first_attempt))
    by (rewrite L; left; reflexivity).
  destruct (Later Samples.after_first_attempt Samples.beneficiary
              Samples.december Samples.holder_at_shop2 91%Q In1
              eq_refl eq_refl eq_refl eq_refl eq_refl A)
    as ((p & _ & _ & _ & H2 & _ & Hp) & H30).
  split.
  - rewrite H2. rewrite (Hp (fun t Ht _ _ => Only t Ht)).
    assert (I1 : map tx_id (ledger Samples.after_first_attempt) = [1])
      by reflexivity.
    rewrite L in I1. injection I1 as ->. reflexivity.
  - apply H30. intros t Ht _ _. rewrite (Only t Ht), T3. lia.
Defined.

End EngineFacts.

(** ** More on the monitoring dashboard *)

Module MonitoringExtras.

Import Schema Monitoring MonitoringView.

Lemma perm_filter_length {A : Type} (p : A -> bool) (l l' : list A) :
  Permutation l l' ->
  List.length (filter p l) = List.length (filter p l').
Proof.
  induction 1 as [|x l l' _ IH|x y l|l l' l'' _ IH1 _ IH2]; simpl.
  - reflexivity.
  - destruct (p x); simpl; rewrite IH; reflexivity.
  - destruct (p x), (p y); reflexivity.
  - rewrite IH1. exact IH2.
Qed.

Lemma ten_newest_in {A : Type} (key : A -> timestamptz) (table shown : list A) :
  ten_newest key table shown -> forall x, In x shown -> In x table.
Proof.
  intros (_ & _ & rest & P & _) x Hx.
  apply (Permutation_in _ (Permutation_sym P)). apply in_or_app.
  left. exact Hx.
Qed.

Lemma ten_newest_filter_le {A : Type} (key : A -> timestamptz) (p : A -> bool)
    (table shown : list A) :
  ten_newest key table shown ->
  List.length (filter p shown) <= List.length (filter p table).
Proof.
  intros (_ & _ & rest & P & _).
  rewrite (perm_filter_length p _ _ P), filter_app, length_app. lia.
Qed.

Lemma ten_newest_all {A : Type} (key : A -> timestamptz) (table shown : list A) :
  ten_newest key table shown ->
  List.length table <= 10 -> Permutation table shown.
Proof.
  intros (L & _ & rest & P & _) H.
  pose proof (Permutation_length P) as E. rewrite length_app in E.
  assert (R : rest = []) by (destruct rest; [reflexivity|simpl in E; lia]).
  subst rest. rewrite app_nil_r in P. exact P.
Qed.

Lemma may_answer_shown {A : Type} (key : A -> timestamptz) (p : A -> bool)
    (table : list A) (data : option (list A)) :
  may_answer key table data ->
  List.length (or_empty data) <= 10 /\
  (forall x, In x (or_empty data) -> In x table) /\
  StronglySorted (not_older key) (or_empty data) /\
  List.length (filter p (or_empty data)) <= List.length (filter p table).
Proof.
  destruct data as [rows|]; simpl; intros H.
  - split; [destruct H as (L & _); rewrite L; apply Nat.le_min_l|].
    split; [apply (ten_newest_in key); exact H|].
    split; [exact (proj1 (proj2 H))|].
    apply (ten_newest_filter_le key). exact H.
  - split; [lia|]. split; [intros x []|]. split; [constructor|lia].
Qed.

(** X1.  Whatever the database answers to the two queries of [loadData],
    ten newest rows with those created at the same time in any order, or
    nothing for a query that failed, each list shown holds at most ten
    rows, all of them rows of its table, newest first; a failed query
    leaves its list empty, and a table of at most ten rows is shown whole
    when its query is answered.  The badge of pending alerts is at most ten
    and at most the number of pending alerts of the table.  When the
    request throws, the lists stay as they were.  The loading state ends in
    every case. *)
Theorem loadData_shows_newest :
  forall db t a st,
    may_answer transactions.created_at (db_transactions db) t ->
    may_answer duplicate_alerts.created_at (db_alerts db) a ->
    (List.length (recentTransactions (loadData (Some (t, a)) st)) <= 10 /\
     (forall x, In x (recentTransactions (loadData (Some (t, a)) st)) ->
                In x (db_transactions db)) /\
     StronglySorted (not_older transactions.created_at)
       (recentTransactions (loadData (Some (t, a)) st))) /\
    (List.length (recentAlerts (loadData (Some (t, a)) st)) <= 10 /\
     (forall x, In x (recentAlerts (loadData (Some (t, a)) st)) ->
                In x (db_alerts db)) /\
     StronglySorted (not_older duplicate_alerts.created_at)
       (recentAlerts (loadData (Some (t, a)) st))) /\
    pending_badge (loadData (Some (t, a)) st)
    <= Nat.min 10
         (List.length (filter review_buttons_shown (db_alerts db))) /\
    (t = None -> recentTransactions (loadData (Some (t, a)) st) = []) /\
    (a = None -> recentAlerts (loadData (Some (t, a)) st) = []) /\
    (forall rows, a = Some rows -> List.length (db_alerts db) <= 10 ->
                  Permutation (db_alerts db)
                    (recentAlerts (loadData (Some (t, a)) st))) /\
    loading (loadData (Some (t, a)) st) = false /\
    recentTransactions (loadData None st) = recentTransactions st /\
    recentAlerts (loadData None st) = recentAlerts st /\
    loading (loadData None st) = false.
Proof.
  intros db t a st Ht Ha.
  destruct (may_answer_shown _ (fun _ => true) _ _ Ht) as (T1 & T2 & T3 & _).
  destruct (may_answer_shown _ review_buttons_shown _ _ Ha)
    as (A1 & A2 & A3 & A4).
  unfold pending_badge. cbn [loadData recentTransactions recentAlerts loading].
  split; [auto|]. split; [auto|].
  split.
  { apply Nat.min_glb; [|exact A4].
    eapply Nat.le_trans; [apply filter_length_le|exact A1]. }
  split; [intros ->; reflexivity|]. split; [intros ->; reflexivity|].
  split; [|repeat split].
  intros rows -> H. cbn [or_empty]. apply (ten_newest_all _ _ _ Ha H).
Qed.

Lemma loadData_shows_newest_witness :
  may_answer duplicate_alerts.created_at (db_alerts Samples.dashboard_db)
    (Some [Samples.pending_alert; Samples.resolved_alert]) /\
  pending_badge
    (loadData (Some (None, Some [Samples.pending_alert; Samples.resolved_alert]))
       Samples.dashboard)
  <= 1.
Proof.
  assert (A : may_answer duplicate_alerts.created_at
                (db_alerts Samples.dashboard_db)
                (Some [Samples.pending_alert; Samples.resolved_alert])).
  { split; [reflexivity|]. split.
    - constructor; [constructor; constructor|].
      constructor; [|constructor]. unfold not_older. simpl. lia.
    - exists []. split; [apply perm_swap|]. intros x y _ []. }
  split; [exact A|].
  destruct (loadData_shows_newest Samples.dashboard_db None
              (Some [Samples.pending_alert; Samples.resolved_alert])
              Samples.dashboard I A) as (_ & _ & H & _).
  exact H.
Defined.

Lemma review_patch_id status now a :
  duplicate_alerts.id (review_patch status now a) = duplicate_alerts.id a.
Proof. reflexivity. Qed.

Lemma update_alert_unknown tbl alertId status now :
  (forall a, In a tbl -> duplicate_alerts.id a <> alertId) ->
  update_alert tbl alertId status now = tbl.
Proof.
  intros H. unfold update_alert.
  destruct (duplicate_alerts.status_check (Some status)); [|reflexivity].
  induction tbl as [|a tbl IH]; simpl; [reflexivity|].
  assert (E : Nat.eqb (duplicate_alerts.id a) alertId = false)
    by (apply Nat.eqb_neq; apply H; left; reflexivity).
  rewrite E. f_equal. apply IH. intros b Hb. apply H. right. exact Hb.
Qed.

(** X2.  A review that names an identifier no alert carries, or a status
    the CHECK constraint of the column refuses, leaves both tables as they
    were. *)
Theorem handleReviewAlert_unknown_or_refused :
  forall now alertId status refresh db st,
    (forall a, In a (db_alerts db) -> duplicate_alerts.id a <> alertId) \/
    duplicate_alerts.status_check (Some status) = false ->
    db_alerts (fst (handleReviewAlert now alertId status refresh db st)) = db_alerts db /\
    db_transactions (fst (handleReviewAlert now alertId status refresh db st))
    = db_transactions db.
Proof.
  intros now alertId status refresh db st H. simpl. split; [|reflexivity].
  destruct H as [H|H].
  - apply update_alert_unknown. exact H.
  - unfold update_alert. rewrite H. reflexivity.
Qed.

Lemma handleReviewAlert_unknown_or_refused_witness :
  duplicate_alerts.status_check (Some "closed") = false /\
  db_alerts (fst (handleReviewAlert 2000%Z 8 "closed" Samples.refresh_failed Samples.dashboard_db
                    Samples.dashboard))
  = db_alerts Samples.dashboard_db.
Proof.
  split; [reflexivity|].
  exact (proj1 (handleReviewAlert_unknown_or_refused 2000%Z 8 "closed"
        Samples.refresh_failed
                  Samples.dashboard_db Samples.dashboard
                  (or_intror eq_refl))).
Defined.

(** X3.  A review writes nothing but [status], [reviewed_by] and
    [reviewed_at]: the transactions are untouched, and the alerts keep
    their number, their order and every other column. *)
Theorem handleReviewAlert_frame :
  forall now alertId status refresh db st,
    db_transactions (fst (handleReviewAlert now alertId status refresh db st))
    = db_transactions db /\
    map unreviewed_columns
      (db_alerts (fst (handleReviewAlert now alertId status refresh db st)))
    = map unreviewed_columns (db_alerts db) /\
    List.length (db_alerts (fst (handleReviewAlert now alertId status refresh db st)))
    = List.length (db_alerts db).
Proof.
  intros now alertId status refresh db st. simpl.
  assert (M : map unreviewed_columns
                (update_alert (db_alerts db) alertId status now)
              = map unreviewed_columns (db_alerts db)).
  { unfold update_alert.
    destruct (duplicate_alerts.status_check (Some status)); [|reflexivity].
    rewrite map_map. apply map_ext. intros a.
    destruct (Nat.eqb (duplicate_alerts.id a) alertId); reflexivity. }
  split; [reflexivity|]. split; [exact M|].
  rewrite <- (length_map unreviewed_columns), M. apply length_map.
Qed.

Lemma filter_map_le {A : Type} (p : A -> bool) (f : A -> A) (l : list A) :
  (forall a, p (f a) = true -> p a = true) ->
  List.length (filter p (map f l)) <= List.length (filter p l).
Proof.
  intros H. induction l as [|x l IH]; simpl; [lia|].
  destruct (p (f x)) eqn:E.
  - rewrite (H x E). simpl. lia.
  - destruct (p x); simpl; lia.
Qed.




Lemma update_alert_commute tbl id1 s1 n1 id2 s2 n2 :
  id1 <> id2 ->
  update_alert (update_alert tbl id1 s1 n1) id2 s2 n2
  = update_alert (update_alert tbl id2 s2 n2) id1 s1 n1.
Proof.
  intros Hne. unfold update_alert.
  destruct (duplicate_alerts.status_check (Some s1));
    destruct (duplicate_alerts.status_check (Some s2)); try reflexivity.
  rewrite !map_map. apply map_ext. intros a.
  destruct (Nat.eqb (duplicate_alerts.id a) id1) eqn:E1;
    destruct (Nat.eqb (duplicate_alerts.id a) id2) eqn:E2;
    rewrite ?review_patch_id, ?E1, ?E2; try reflexivity.
  apply Nat.eqb_eq in E1, E2. congruence.
Qed.

(** X5.  Reviews of two different alerts do not interfere: made in either
    order, they leave the same tables. *)
Theorem handleReviewAlert_commute :
  forall n1 id1 s1 r1 n2 id2 s2 r2 db st st',
    id1 <> id2 ->
    fst (handleReviewAlert n2 id2 s2 r2
           (fst (handleReviewAlert n1 id1 s1 r1 db st)) st')
    = fst (handleReviewAlert n1 id1 s1 r1
             (fst (handleReviewAlert n2 id2 s2 r2 db st)) st').
Proof.
  intros n1 id1 s1 r1 n2 id2 s2 r2 db st st' Hne. simpl. f_equal.
  apply update_alert_commute. exact Hne.
Qed.

Lemma handleReviewAlert_commute_witness :
  fst (handleReviewAlert 2100%Z 8 "resolved" Samples.refresh_failed
         (fst (handleReviewAlert 2000%Z 7 "dismissed" Samples.refreshed_after_dismissal Samples.dashboard_db
                 Samples.dashboard)) Samples.dashboard)
  = fst (handleReviewAlert 2000%Z 7 "dismissed"
        Samples.refreshed_after_dismissal
           (fst (handleReviewAlert 2100%Z 8 "resolved" Samples.refresh_failed Samples.dashboard_db
                   Samples.dashboard)) Samples.dashboard).
Proof.
  apply handleReviewAlert_commute. discriminate.
Defined.

(** X6.  The last review wins: a review accepted by the column overwrites
    an earlier review of the same alert entirely, status, reviewer and
    time, so that nothing of the earlier one is left in the table. *)
Theorem handleReviewAlert_last_wins :
  forall n1 s1 r1 n2 s2 r2 alertId db st st',
    duplicate_alerts.status_check (Some s2) = true ->
    db_alerts (fst (handleReviewAlert n2 alertId s2 r2
                      (fst (handleReviewAlert n1 alertId s1 r1 db st)) st'))
    = db_alerts (fst (handleReviewAlert n2 alertId s2 r2 db st)).
Proof.
  intros n1 s1 r1 n2 s2 r2 alertId db st st' C. simpl. unfold update_alert.
  rewrite C. destruct (duplicate_alerts.status_check (Some s1)); [|reflexivity].
  rewrite map_map. apply map_ext. intros a.
  destruct (Nat.eqb (duplicate_alerts.id a) alertId) eqn:E.
  - rewrite review_patch_id, E. reflexivity.
  - rewrite E. reflexivity.
Qed.

Lemma handleReviewAlert_last_wins_witness :
  duplicate_alerts.status_check (Some "dismissed") = true /\
  db_alerts (fst (handleReviewAlert 2100%Z 8 "dismissed" Samples.refresh_failed
                    (fst (handleReviewAlert 2000%Z 8 "resolved"
                          Samples.refreshed_after_resolution
                            Samples.dashboard_db Samples.dashboard))
                    Samples.dashboard))
  = db_alerts (fst (handleReviewAlert 2100%Z 8 "dismissed"
        Samples.refresh_failed
                      Samples.dashboard_db Samples.dashboard)).
Proof.
  split; [reflexivity|].
  apply handleReviewAlert_last_wins. reflexivity.
Defined.

Lemma heading_char_inverse :
  exists h : ascii -> ascii,
    forall c,
      is_lower c || Ascii.eqb c "_" = true ->
      h (if is_lower (if Ascii.eqb c "_" then " "%char else c)
         then ascii_of_nat
                (nat_of_ascii (if Ascii.eqb c "_" then " "%char else c) - 32)
         else if Ascii.eqb c "_" then " "%char else c) = c.
Proof.
  exists (fun d => if Ascii.eqb d " " then "_"%char
                   else ascii_of_nat (nat_of_ascii d + 32)).
  intros c.
  destruct c as [b0 b1 b2 b3 b4 b5 b6 b7].
  destruct b0, b1, b2, b3, b4, b5, b6, b7;
    intros H; try discriminate H; reflexivity.
Qed.

Lemma heading_char_capital (c : ascii) :
  is_lower c || Ascii.eqb c "_" = true ->
  is_upper (if is_lower (if Ascii.eqb c "_" then " "%char else c)
            then ascii_of_nat
                   (nat_of_ascii (if Ascii.eqb c "_" then " "%char else c) - 32)
            else if Ascii.eqb c "_" then " "%char else c)
  || Ascii.eqb (if is_lower (if Ascii.eqb c "_" then " "%char else c)
                then ascii_of_nat
                       (nat_of_ascii (if Ascii.eqb c "_" then " "%char else c)
                        - 32)
                else if Ascii.eqb c "_" then " "%char else c) " " = true.
Proof.
  destruct c as [b0 b1 b2 b3 b4 b5 b6 b7].
  destruct b0, b1, b2, b3, b4, b5, b6, b7;
    intros H; try discriminate H; reflexivity.
Qed.

Lemma alert_heading_cons c s :
  alert_heading (String c s)
  = String (if is_lower (if Ascii.eqb c "_" then " "%char else c)
            then ascii_of_nat
                   (nat_of_ascii (if Ascii.eqb c "_" then " "%char else c) - 32)
            else if Ascii.eqb c "_" then " "%char else c)
           (alert_heading s).
Proof. reflexivity. Qed.

Lemma alert_heading_injective (a b : string) :
  snake_case a = true -> snake_case b = true ->
  alert_heading a = alert_heading b -> a = b.
Proof.
  destruct heading_char_inverse as [h Hh].
  revert b. induction a as [|c a IH]; intros [|d b] Ha Hb E.
  - reflexivity.
  - discriminate E.
  - discriminate E.
  - rewrite !alert_heading_cons in E. injection E as E1 E2.
    unfold snake_case in Ha, Hb. simpl in Ha, Hb.
    apply andb_true_iff in Ha, Hb. destruct Ha as [Hc Ha], Hb as [Hd Hb].
    f_equal.
    + rewrite <- (Hh c Hc), <- (Hh d Hd), E1. reflexivity.
    + apply IH; assumption.
Qed.

(** X7.  The heading of an alert card, the alert type with its underscores
    turned into spaces and in capitals, tells the alert types apart: every
    alert type the table admits is written in lower-case letters and
    underscores, and on such texts the heading has the length of the type,
    consists of capital letters and spaces, and is different for different
    types. *)
Theorem alert_heading_faithful :
  (forall ty,
      sql_in (Some ty) duplicate_alerts.alert_type_values = true ->
      snake_case ty = true) /\
  (forall ty,
      snake_case ty = true ->
      String.length (alert_heading ty) = String.length ty /\
      capitals (alert_heading ty) = true /\
      forall ty',
        snake_case ty' = true ->
        alert_heading ty = alert_heading ty' -> ty = ty').
Proof.
  split.
  - intros ty H. apply SchemaFacts.sql_in_some in H.
    destruct H as [<-|[<-|[<-|[<-|[]]]]]; reflexivity.
  - intros ty H. split; [|split].
    + clear H. induction ty as [|c ty IH]; [reflexivity|].
      rewrite alert_heading_cons. simpl. rewrite IH. reflexivity.
    + induction ty as [|c ty IH]; [reflexivity|].
      unfold snake_case in H. simpl in H. apply andb_true_iff in H.
      destruct H as [Hc H]. rewrite alert_heading_cons.
      unfold capitals. cbn [string_forall].
      rewrite (heading_char_capital c Hc). apply IH. exact H.
    + intros ty' H' E. apply alert_heading_injective; assumption.
Qed.

End MonitoringExtras.

(** ** More on the registration form *)

Module RegistrationExtras.

Import Schema Registration RegistrationFacts.

(** The row a submission inserts. *)
Lemma handleSubmit_cases pg_message now concurrent db st :
  (fst (handleSubmit pg_message now concurrent db st) = db \/
   fst (handleSubmit pg_message now concurrent db st) = concurrent db) /\
  (exists t,
      message (snd (handleSubmit pg_message now concurrent db st))
      = Some (mkMessage error t)) /\
  formData (snd (handleSubmit pg_message now concurrent db st)) = formData st /\
  capturedImage (snd (handleSubmit pg_message now concurrent db st))
  = capturedImage st
  \/
  exists img,
    valid st img /\
    beneficiaries.card_number_taken (concurrent db) (card_number (formData st))
    = false /\
    handleSubmit pg_message now concurrent db st
    = (concurrent db
       ++ [beneficiaries.mk
             (fresh_uuid (map beneficiaries.id (concurrent db)))
             (card_number (formData st)) (name (formData st))
             (Some (phone (formData st))) (Some (address (formData st)))
             (Some (truncated_image img)) (Some img) (Some "active") now now],
       mkState emptyForm None false
         (Some (mkMessage success "Beneficiary registered successfully!"))).
Proof.
  unfold handleSubmit.
  destruct (js_not_nullable (capturedImage st)) eqn:G1.
  { left. simpl. repeat split; eauto. }
  destruct (js_not (card_number (formData st)) || js_not (name (formData st)))
    eqn:G2.
  { left. simpl. repeat split; eauto. }
  destruct (maybeSingle _).
  { left. simpl. repeat split; eauto. }
  destruct (capturedImage st) as [img|] eqn:Hi; [|discriminate G1].
  destruct (beneficiaries.card_number_taken (concurrent db)
              (card_number (formData st))) eqn:T.
  - left. rewrite (insert_rejects_taken now _ _ img T). simpl.
    repeat split; eauto.
  - right. exists img. rewrite (insert_accepts_free now _ _ img T).
    simpl in G1. apply js_not_false in G1.
    apply orb_false_iff in G2. destruct G2 as [G2 G3].
    apply js_not_false in G2, G3.
    split; [repeat split; assumption|]. split; reflexivity.
Qed.

Lemma handleSubmit_succeeds pg_message now concurrent db st img :
  valid st img ->
  beneficiaries.card_number_taken db (card_number (formData st)) = false ->
  beneficiaries.card_number_taken (concurrent db) (card_number (formData st))
  = false ->
  handleSubmit pg_message now concurrent db st
  = (concurrent db
     ++ [beneficiaries.mk
           (fresh_uuid (map beneficiaries.id (concurrent db)))
           (card_number (formData st)) (name (formData st))
           (Some (phone (formData st))) (Some (address (formData st)))
           (Some (truncated_image img)) (Some img) (Some "active") now now],
     mkState emptyForm None false
       (Some (mkMessage success "Beneficiary registered successfully!"))).
Proof.
  intros V Tdb Tc.
  destruct (valid_guards st img V) as [G1 G2].
  destruct V as (Hi & _).
  unfold handleSubmit. rewrite G1, G2.
  rewrite (select_absent _ _ Tdb). cbn [maybeSingle].
  rewrite Hi, (insert_accepts_free now _ _ img Tc). reflexivity.
Qed.

(** X8.  [handleSubmit] always ends with a message, and the message tells
    what happened to the table.  With the success message exactly one row
    was appended, for the card number of the form, and the form, the image
    and the loading flag are reset; with an error message this call added
    nothing and the form and the image are kept as the user entered
    them. *)
Theorem handleSubmit_message_tells :
  forall pg_message now concurrent db st,
    exists m,
      message (snd (handleSubmit pg_message now concurrent db st)) = Some m /\
      (type m = success ->
       (exists row,
           fst (handleSubmit pg_message now concurrent db st)
           = concurrent db ++ [row] /\
           beneficiaries.card_number row = card_number (formData st)) /\
       formData (snd (handleSubmit pg_message now concurrent db st)) = emptyForm /\
       capturedImage (snd (handleSubmit pg_message now concurrent db st)) = None /\
       loading (snd (handleSubmit pg_message now concurrent db st)) = false) /\
      (type m = error ->
       (fst (handleSubmit pg_message now concurrent db st) = db \/
        fst (handleSubmit pg_message now concurrent db st) = concurrent db) /\
       formData (snd (handleSubmit pg_message now concurrent db st))
       = formData st /\
       capturedImage (snd (handleSubmit pg_message now concurrent db st))
       = capturedImage st).
Proof.
  intros pg_message now concurrent db st.
  destruct (handleSubmit_cases pg_message now concurrent db st)
    as [(Hdb & (t & Hm) & Hf & Hi)|(img & V & T & E)].
  - exists (mkMessage error t). split; [exact Hm|]. split.
    + discriminate.
    + intros _. auto.
  - rewrite E. eexists. split; [reflexivity|]. split.
    + intros _. simpl. split; [eexists; split; reflexivity|auto].
    + discriminate.
Qed.

(** X9.  A card is registered once.  After a registration that succeeded,
    with nobody else writing, a second submit of the form as it was left is
    turned down for want of an image, and any complete form for the same
    card number is answered that the card number is already registered;
    neither writes to the table. *)
Theorem registered_once :
  forall pg_message now now' db st img,
    valid st img ->
    beneficiaries.card_number_taken db (card_number (formData st)) = false ->
    (fst (handleSubmit pg_message now' (fun t => t)
            (fst (handleSubmit pg_message now (fun t => t) db st))
            (snd (handleSubmit pg_message now (fun t => t) db st)))
     = fst (handleSubmit pg_message now (fun t => t) db st) /\
     message (snd (handleSubmit pg_message now' (fun t => t)
                     (fst (handleSubmit pg_message now (fun t => t) db st))
                     (snd (handleSubmit pg_message now (fun t => t) db st))))
     = Some (mkMessage error "Please capture or upload a face image")) /\
    (forall st2 img2,
        valid st2 img2 ->
        card_number (formData st2) = card_number (formData st) ->
        fst (handleSubmit pg_message now' (fun t => t)
               (fst (handleSubmit pg_message now (fun t => t) db st)) st2)
        = fst (handleSubmit pg_message now (fun t => t) db st) /\
        message (snd (handleSubmit pg_message now' (fun t => t)
                        (fst (handleSubmit pg_message now (fun t => t) db st))
                        st2))
        = Some (mkMessage error "Card number already registered")).
Proof.
  intros pg_message now now' db st img V T.
  rewrite (handleSubmit_succeeds pg_message now (fun t => t) db st img V T T).
  cbn [fst snd]. split; [split; reflexivity|].
  intros st2 img2 V2 Hc.
  destruct (valid_guards st2 img2 V2) as [G1 G2].
  unfold handleSubmit. rewrite G1, G2, Hc.
  unfold select_id_by_card. rewrite filter_app.
  assert (F : filter (fun r => String.eqb (beneficiaries.card_number r)
                                 (card_number (formData st))) db = []).
  { apply filter_nil_iff. intros x Hx.
    destruct (String.eqb (beneficiaries.card_number x)
                (card_number (formData st))) eqn:Q; [|reflexivity].
    apply String.eqb_eq in Q.
    assert (T' : beneficiaries.card_number_taken db
                   (card_number (formData st)) = true)
      by (apply card_number_taken_true; exists x; auto).
    congruence. }
  rewrite F. cbn [filter app beneficiaries.card_number].
  rewrite String.eqb_refl. cbn [map maybeSingle fst snd].
  split; reflexivity.
Qed.

Lemma registered_once_witness :
  valid Samples.submitted Samples.image /\
  message (snd (handleSubmit Samples.pg_message 300%Z (fun t => t)
                  (fst (handleSubmit Samples.pg_message 200%Z (fun t => t) []
                          Samples.submitted))
                  Samples.submitted))
  = Some (mkMessage error "Card number already registered").
Proof.
  assert (V : valid Samples.submitted Samples.image)
    by (repeat split; discriminate).
  split; [exact V|].
  exact (proj2 (proj2 (registered_once Samples.pg_message 200%Z 300%Z []
                         Samples.submitted Samples.image V eq_refl)
                  Samples.submitted Samples.image V eq_refl)).
Defined.

(** X10.  Every row of a registry built with the form carries a non-empty
    card number and name, the status [active], a non-empty data URL as face
    embedding with its truncation as face image URL, and equal creation and
    update times. *)
Theorem reachable_rows_well_formed :
  forall pg_message db r,
    reachable pg_message db ->
    In r db ->
    beneficiaries.card_number r <> EmptyString /\
    beneficiaries.name r <> EmptyString /\
    beneficiaries.status r = Some "active" /\
    (exists img,
        img <> EmptyString /\
        beneficiaries.face_embedding r = Some img /\
        beneficiaries.face_image_url r = Some (truncated_image img)) /\
    beneficiaries.created_at r = beneficiaries.updated_at r.
Proof.
  intros pg_message db r R. revert r.
  induction R as [|now db st _ IH]; intros r Hr.
  - contradiction.
  - destruct (handleSubmit_cases pg_message now (fun t => t) db st)
      as [([E|E] & _)|(img & (Hi & Hn & Hc & Hm) & _ & E)].
    + rewrite E in Hr. apply IH. exact Hr.
    + rewrite E in Hr. apply IH. exact Hr.
    + rewrite E in Hr. cbn [fst] in Hr. apply in_app_or in Hr.
      destruct Hr as [Hr|[<-|[]]]; [apply IH; exact Hr|].
      cbn. repeat split; try assumption. exists img. repeat split. exact Hn.
Qed.

Lemma reachable_rows_well_formed_witness :
  exists r,
    In r (fst (handleSubmit Samples.pg_message 200%Z (fun t => t) []
                 Samples.submitted)) /\
    beneficiaries.status r = Some "active" /\
    beneficiaries.card_number r <> EmptyString.
Proof.
  eexists. split; [left; reflexivity|].
  assert (R : reachable Samples.pg_message
                (fst (handleSubmit Samples.pg_message 200%Z (fun t => t) []
                        Samples.submitted)))
    by (apply reachable_submit; apply reachable_empty).
  destruct (reachable_rows_well_formed Samples.pg_message _ _ R
              (or_introl eq_refl)) as (H1 & _ & H3 & _).
  split; [exact H3|exact H1].
Defined.

(** X11.  In a registry built with the form, no two rows share an
    identifier, and no two rows share a card number. *)
Theorem reachable_keys_distinct :
  forall pg_message db,
    reachable pg_message db ->
    NoDup (map beneficiaries.id db) /\ unique_cards db.
Proof.
  intros pg_message db R. split; [|apply (reachable_unique pg_message); exact R].
  induction R as [|now db st _ IH].
  - constructor.
  - destruct (handleSubmit_cases pg_message now (fun t => t) db st)
      as [([E|E] & _)|(img & _ & _ & E)].
    + rewrite E. exact IH.
    + rewrite E. exact IH.
    + rewrite E. cbn [fst]. rewrite map_app. cbn [map beneficiaries.id].
      apply NoDup_app; [exact IH| |].
      * constructor; [intros []|constructor].
      * intros x Hx [<-|[]]. exact (fresh_uuid_fresh _ Hx).
Qed.

Lemma reachable_keys_distinct_witness :
  NoDup (map beneficiaries.id
           (fst (handleSubmit Samples.pg_message 200%Z (fun t => t) []
                   Samples.submitted))).
Proof.
  apply (reachable_keys_distinct Samples.pg_message).
  apply reachable_submit. apply reachable_empty.
Defined.

End RegistrationExtras.

(** ** The list of beneficiaries *)

Module BeneficiaryListExtras.

Import Schema BeneficiaryList.

Lemma prefix_spec (sub s : string) :
  String.prefix sub s = true <-> exists post, s = (sub ++ post)%string.
Proof.
  revert s. induction sub as [|c sub IH]; intros s.
  - split; [intros _; exists s; reflexivity|].
    intros _. destruct s; reflexivity.
  - destruct s as [|d s]; simpl.
    + split; [discriminate|]. intros (post & E). discriminate E.
    + destruct (Ascii.ascii_dec c d) as [<-|Hne].
      * rewrite IH. split; intros (post & E); exists post.
        -- rewrite E. reflexivity.
        -- injection E as E. exact E.
      * split; [discriminate|]. intros (post & E). injection E as E1 E2.
        congruence.
Qed.

(** [includes] finds exactly the occurrences of the fragment. *)
Lemma includes_spec (s sub : string) :
  includes s sub = true <->
  exists pre post, s = (pre ++ sub ++ post)%string.
Proof.
  induction s as [|c s IH].
  - cbn [includes]. rewrite orb_false_r, prefix_spec. split.
    + intros (post & E). exists EmptyString, post. exact E.
    + intros (pre & post & E). destruct pre as [|d pre]; [|discriminate E].
      exists post. exact E.
  - cbn [includes]. rewrite orb_true_iff, prefix_spec, IH. split.
    + intros [(post & E)|(pre & post & E)].
      * exists EmptyString, post. exact E.
      * exists (String c pre), post. rewrite E. reflexivity.
    + intros (pre & post & E). destruct pre as [|d pre].
      * left. exists post. exact E.
      * right. injection E as _ E. exists pre, post. exact E.
Qed.

Lemma includes_empty (s : string) : includes s EmptyString = true.
Proof. destruct s; reflexivity. Qed.

(** X12.  With an empty search box the list shows every beneficiary that
    was loaded, in the order loaded, and the line 'No beneficiaries found'
    appears only when none was loaded. *)
Theorem empty_search_shows_all :
  forall toLowerCase st,
    searchTerm st = EmptyString ->
    filteredBeneficiaries toLowerCase st = beneficiaries st /\
    (nothing_found_shown toLowerCase st = true <-> beneficiaries st = []).
Proof.
  intros toLowerCase st E.
  assert (F : filteredBeneficiaries toLowerCase st = beneficiaries st).
  { unfold filteredBeneficiaries. rewrite E.
    induction (beneficiaries st) as [|b l IH]; simpl; [reflexivity|].
    unfold matches at 1. rewrite includes_empty, orb_true_r.
    f_equal. exact IH. }
  split; [exact F|].
  unfold nothing_found_shown. rewrite F.
  destruct (beneficiaries st); simpl; split; intros H;
    try reflexivity; discriminate.
Qed.

Lemma empty_search_shows_all_witness :
  filteredBeneficiaries (fun s => s)
    (mkState [Samples.suspended_row] false EmptyString)
  = [Samples.suspended_row].
Proof.
  exact (proj1 (empty_search_shows_all (fun s => s)
                  (mkState [Samples.suspended_row] false EmptyString)
                  eq_refl)).
Defined.

Lemma search_fragment_In toLowerCase st b :
  In b (beneficiaries st) /\
  ((exists pre post,
       toLowerCase (beneficiaries.name b)
       = (pre ++ toLowerCase (searchTerm st) ++ post)%string) \/
   (exists pre post,
       beneficiaries.card_number b = (pre ++ searchTerm st ++ post)%string)) ->
  In b (filteredBeneficiaries toLowerCase st).
Proof.
  unfold filteredBeneficiaries, matches.
  rewrite filter_In, orb_true_iff, !includes_spec. tauto.
Qed.

(** X13.  The list shows exactly the loaded beneficiaries whose card number
    contains the search term as written, or whose name, in lower case,
    contains the search term in lower case: the search is by fragment,
    indifferent to letter case for names and sensitive to it for card
    numbers. *)
Theorem search_by_fragment :
  forall toLowerCase st b,
    In b (filteredBeneficiaries toLowerCase st) <->
    In b (beneficiaries st) /\
    ((exists pre post,
         toLowerCase (beneficiaries.name b)
         = (pre ++ toLowerCase (searchTerm st) ++ post)%string) \/
     (exists pre post,
         beneficiaries.card_number b
         = (pre ++ searchTerm st ++ post)%string)).
Proof.
  intros toLowerCase st b. unfold filteredBeneficiaries, matches.
  rewrite filter_In, orb_true_iff, !includes_spec. reflexivity.
Qed.

End BeneficiaryListExtras.

(** ** The operator screen *)

Module OperatorExtras.

Import Schema Operator.

Lemma incomplete_false st :
  incomplete st = false ->
  exists shop img,
    selectedShop st = Some shop /\ capturedImage st = Some img /\
    img <> EmptyString /\ cardNumber st <> EmptyString.
Proof.
  unfold incomplete. intros H.
  apply orb_false_iff in H. destruct H as [H H3].
  apply orb_false_iff in H. destruct H as [H1 H2].
  destruct (selectedShop st) as [shop|]; [|discriminate].
  destruct (capturedImage st) as [img|]; [|discriminate].
  simpl in H2. apply js_not_false in H1, H2.
  exists shop, img. auto.
Qed.

(** X14.  [handleVerify] sends a request exactly when a card number, an
    image and a shop are present, and then exactly one, carrying them with
    the operator identifier and no item; otherwise it only shows a notice
    and changes nothing.  The Verify button is disabled whenever the form
    is incomplete, so a click on the enabled button always sends the
    request.  After the call the inputs are as before and the verifying
    flag is down. *)
Theorem handleVerify_requests :
  forall service st,
    (incomplete st = true ->
     handleVerify service st
     = mkOutcome st
         ["Please enter card number, select shop, and capture/upload image"]
         [] false) /\
    (incomplete st = false ->
     exists shop img,
       selectedShop st = Some shop /\ capturedImage st = Some img /\
       sent (handleVerify service st)
       = [mkRequest (cardNumber st) shop img (operatorId st) []] /\
       alerted (handleVerify service st) = [] /\
       verifying (state (handleVerify service st)) = false /\
       result (state (handleVerify service st)) <> None /\
       cardNumber (state (handleVerify service st)) = cardNumber st /\
       capturedImage (state (handleVerify service st)) = capturedImage st /\
       selectedShop (state (handleVerify service st)) = selectedShop st) /\
    (verify_button_disabled st = false -> incomplete st = false).
Proof.
  intros service st. split; [|split].
  - intros H. unfold handleVerify. rewrite H. reflexivity.
  - intros H. destruct (incomplete_false st H) as (shop & img & Hs & Hi & _).
    exists shop, img. unfold handleVerify. rewrite H, Hs, Hi.
    destruct (service _); cbn; rewrite ?Hs, ?Hi;
      repeat split; try reflexivity; discriminate.
  - unfold verify_button_disabled. intros H.
    apply orb_false_iff in H. exact (proj2 H).
Qed.

(** X15.  Once a request was sent there is a result to show, and the form
    is cleared five seconds later exactly when that result is shown in
    green, a success without alerts.  When the service cannot be reached
    the result is the red notice that it is unavailable, and nothing is
    cleared. *)
Theorem reset_exactly_when_green :
  forall service st,
    incomplete st = false ->
    exists r,
      result (state (handleVerify service st)) = Some r /\
      (reset_scheduled (handleVerify service st) = true <-> panel r = green) /\
      ((forall q, service q = None) ->
       r = service_unavailable /\ panel r = red /\
       reset_scheduled (handleVerify service st) = false).
Proof.
  intros service st H. unfold handleVerify. rewrite H.
  destruct (service _) as [data|] eqn:E.
  - exists data. cbn. split; [reflexivity|]. split.
    + unfold panel. destruct (success data && no_alerts data) eqn:G.
      * split; reflexivity.
      * split; [discriminate|]. destruct (success data); discriminate.
    + intros N. rewrite N in E. discriminate.
  - exists service_unavailable. cbn. split; [reflexivity|]. split.
    + split; discriminate.
    + intros _. repeat split.
Qed.

Lemma reset_exactly_when_green_witness :
  incomplete MoreSamples.ready = false /\
  reset_scheduled (handleVerify MoreSamples.accepting MoreSamples.ready) = true /\
  reset_scheduled (handleVerify MoreSamples.unreachable MoreSamples.ready)
  = false.
Proof.
  split; [reflexivity|].
  destruct (reset_exactly_when_green MoreSamples.accepting MoreSamples.ready
              eq_refl) as (r & Hr & Hg & _).
  destruct (reset_exactly_when_green MoreSamples.unreachable MoreSamples.ready
              eq_refl) as (r' & _ & _ & Hu).
  split.
  - apply Hg. injection Hr as <-. reflexivity.
  - apply Hu. reflexivity.
Defined.

(** X16.  Once the timer has cleared the form, the Verify button is
    disabled and a call of [handleVerify] sends nothing, until a card
    number and an image are entered again; the shops, the selected shop and
    the operator identifier are kept. *)
Theorem reset_blocks_verification :
  forall service st,
    verify_button_disabled (reset st) = true /\
    sent (handleVerify service (reset st)) = [] /\
    result (reset st) = None /\
    shops (reset st) = shops st /\
    selectedShop (reset st) = selectedShop st /\
    operatorId (reset st) = operatorId st.
Proof.
  intros service st.
  assert (I : incomplete (reset st) = true) by reflexivity.
  split.
  - unfold verify_button_disabled. rewrite I. apply orb_true_r.
  - split; [|repeat split].
    unfold handleVerify. rewrite I. reflexivity.
Qed.

(** X17.  The shop of a verification comes from [loadShops].  When the
    shops cannot be loaded, or there is none, no shop is selected and no
    card number and image make [handleVerify] send a request; when shops
    are loaded, the first of the answer is selected, and a card number and
    an image then make [handleVerify] send one request for that shop, under
    the operator identifier [OP001]. *)
Theorem loadShops_selects_first :
  forall service answer card img,
    ((forall first rest, answer <> inr (first :: rest)) ->
     selectedShop (loadShops answer initial) = None /\
     sent (handleVerify service
             (setCapturedImage img
                (setCardNumber card (loadShops answer initial)))) = []) /\
    (forall first rest i,
        answer = inr (first :: rest) ->
        card <> EmptyString -> img = Some i -> i <> EmptyString ->
        shops (loadShops answer initial) = first :: rest /\
        sent (handleVerify service
                (setCapturedImage img
                   (setCardNumber card (loadShops answer initial))))
        = [mkRequest card (Migration.ration_shops.id first) i "OP001" []]).
Proof.
  intros service answer card img. split.
  - intros H. destruct answer as [e|[|first rest]].
    + split; [reflexivity|]. unfold handleVerify, incomplete. cbn.
      rewrite !orb_true_r. reflexivity.
    + split; [reflexivity|]. unfold handleVerify, incomplete. cbn.
      rewrite !orb_true_r. reflexivity.
    + exfalso. exact (H first rest eq_refl).
  - intros first rest i -> Hc -> Hi. split; [reflexivity|].
    apply js_not_false in Hc, Hi.
    unfold handleVerify, incomplete. cbn. rewrite Hc, Hi. cbn.
    destruct (service _); reflexivity.
Qed.

End OperatorExtras.

(** ** The counters of the admin screen *)

Module AdminExtras.

Import Schema Admin.

Lemma filter_stronger_le {A : Type} (p q : A -> bool) (l : list A) :
  (forall x, p x = true -> q x = true) ->
  List.length (filter p l) <= List.length (filter q l).
Proof.
  intros H. induction l as [|x l IH]; simpl; [lia|].
  destruct (p x) eqn:E.
  - rewrite (H x E). simpl. lia.
  - destruct (q x); simpl; lia.
Qed.

(** X18.  Counters read from one state of the tables are consistent: the
    active beneficiaries are at most the beneficiaries, the flagged
    transactions at most the transactions, the critical alerts at most the
    pending alerts; so the red banner for critical alerts appears only
    while the card of pending alerts shows a positive number. *)
Theorem loadStats_consistent :
  forall b t a,
    active_beneficiaries (loadStats_at b t a)
    <= total_beneficiaries (loadStats_at b t a) /\
    flagged_transactions (loadStats_at b t a)
    <= total_transactions (loadStats_at b t a) /\
    critical_alerts (loadStats_at b t a) <= pending_alerts (loadStats_at b t a) /\
    (critical_banner_shown (loadStats_at b t a) = true ->
     0 < pending_alerts (loadStats_at b t a)).
Proof.
  intros b t a.
  assert (C : critical_alerts (loadStats_at b t a)
              <= pending_alerts (loadStats_at b t a)).
  { cbn. apply filter_stronger_le. intros x H.
    apply andb_true_iff in H. tauto. }
  split; [cbn; apply filter_length_le|].
  split; [cbn; apply filter_length_le|].
  split; [exact C|].
  unfold critical_banner_shown. intros H. apply Nat.ltb_lt in H. lia.
Qed.

(** X19.  A registration that succeeds raises the counters of beneficiaries
    and of active beneficiaries by one each, as the admin screen reads them
    when the form reports its success. *)
Theorem registration_raises_counters :
  forall pg_message now db st img t a,
    Registration.valid st img ->
    beneficiaries.card_number_taken db
      (Registration.card_number (Registration.formData st)) = false ->
    total_beneficiaries
      (loadStats_at
         (fst (Registration.handleSubmit pg_message now (fun x => x) db st)) t a)
    = S (total_beneficiaries (loadStats_at db t a)) /\
    active_beneficiaries
      (loadStats_at
         (fst (Registration.handleSubmit pg_message now (fun x => x) db st)) t a)
    = S (active_beneficiaries (loadStats_at db t a)).
Proof.
  intros pg_message now db st img t a V T.
  rewrite (RegistrationExtras.handleSubmit_succeeds pg_message now
             (fun x => x) db st img V T T).
  cbn [fst]. unfold loadStats_at, loadStats. cbn.
  rewrite length_app, filter_app, length_app. cbn. lia.
Qed.

Lemma registration_raises_counters_witness :
  Registration.valid Samples.submitted Samples.image /\
  total_beneficiaries
    (loadStats_at
       (fst (Registration.handleSubmit Samples.pg_message 200%Z (fun x => x)
               [] Samples.submitted)) [] [])
  = 1.
Proof.
  assert (V : Registration.valid Samples.submitted Samples.image)
    by (repeat split; discriminate).
  split; [exact V|].
  exact (proj1 (registration_raises_counters Samples.pg_message 200%Z []
                  Samples.submitted Samples.image [] [] V eq_refl)).
Defined.

Lemma filter_map_lt {A : Type} (p : A -> bool) (f : A -> A) (l : list A) :
  (forall a, p (f a) = true -> p a = true) ->
  (exists a, In a l /\ p a = true /\ p (f a) = false) ->
  List.length (filter p (map f l)) < List.length (filter p l).
Proof.
  intros H (a & Ha & Pa & Pfa).
  induction l as [|x l IH]; [contradiction|].
  pose proof (MonitoringExtras.filter_map_le p f l H) as L.
  simpl. destruct Ha as [->|Ha].
  - rewrite Pa, Pfa. simpl. lia.
  - specialize (IH Ha). destruct (p (f x)) eqn:E.
    + rewrite (H x E). simpl. lia.
    + destruct (p x); simpl; lia.
Qed.

(** X20.  A review made with the Resolve or the Dismiss button never raises
    the counters of pending and of critical alerts, and lowers the counter
    of pending alerts when the alert reviewed was pending. *)
Theorem review_lowers_pending :
  forall now alertId status refresh db st b t,
    In status Monitoring.button_statuses ->
    pending_alerts
      (loadStats_at b t
         (Monitoring.db_alerts
            (fst (Monitoring.handleReviewAlert now alertId status refresh db st))))
    <= pending_alerts (loadStats_at b t (Monitoring.db_alerts db)) /\
    critical_alerts
      (loadStats_at b t
         (Monitoring.db_alerts
            (fst (Monitoring.handleReviewAlert now alertId status refresh db st))))
    <= critical_alerts (loadStats_at b t (Monitoring.db_alerts db)) /\
    ((exists a, In a (Monitoring.db_alerts db) /\
                duplicate_alerts.id a = alertId /\
                duplicate_alerts.status a = Some "pending") ->
     pending_alerts
       (loadStats_at b t
          (Monitoring.db_alerts
             (fst (Monitoring.handleReviewAlert now alertId status refresh db st))))
     < pending_alerts (loadStats_at b t (Monitoring.db_alerts db))).
Proof.
  intros now alertId status refresh db st b t Hs.
  pose proof (MonitoringFacts.button_status_check status Hs) as C.
  set (f := fun a => if Nat.eqb (duplicate_alerts.id a) alertId
                     then Monitoring.review_patch status now a else a).
  assert (U : Monitoring.db_alerts
                (fst (Monitoring.handleReviewAlert now alertId status refresh db st))
              = map f (Monitoring.db_alerts db)).
  { cbn. unfold Monitoring.update_alert. rewrite C. reflexivity. }
  assert (N : eq_text (Some status) "pending" = false)
    by (destruct Hs as [<-|[<-|[]]]; reflexivity).
  assert (P : forall a, eq_text (duplicate_alerts.status (f a)) "pending" = true ->
                        eq_text (duplicate_alerts.status a) "pending" = true).
  { intros a. unfold f.
    destruct (Nat.eqb (duplicate_alerts.id a) alertId); [|trivial].
    cbn [Monitoring.review_patch duplicate_alerts.status]. rewrite N.
    discriminate. }
  rewrite U. unfold loadStats_at, loadStats.
  cbn [pending_alerts critical_alerts or_zero option_map].
  split; [|split].
  - apply MonitoringExtras.filter_map_le. exact P.
  - apply MonitoringExtras.filter_map_le. intros a H.
    apply andb_true_iff in H. destruct H as [H1 H2].
    apply andb_true_iff. split; [|apply P; exact H2].
    unfold f in H1. destruct (Nat.eqb (duplicate_alerts.id a) alertId);
      exact H1.
  - intros (a & Ha & Hid & Hp). apply filter_map_lt; [exact P|].
    exists a. split; [exact Ha|]. split; [rewrite Hp; reflexivity|].
    unfold f. rewrite Hid, Nat.eqb_refl.
    cbn [Monitoring.review_patch duplicate_alerts.status]. exact N.
Qed.

Lemma review_lowers_pending_witness :
  In "resolved" Monitoring.button_statuses /\
  pending_alerts
    (loadStats_at [] []
       (Monitoring.db_alerts
          (fst (Monitoring.handleReviewAlert 2000%Z 8 "resolved"
                Samples.refreshed_after_resolution
                  Samples.dashboard_db Samples.dashboard))))
  < pending_alerts
      (loadStats_at [] [] (Monitoring.db_alerts Samples.dashboard_db)).
Proof.
  assert (B : In "resolved" Monitoring.button_statuses) by (left; reflexivity).
  split; [exact B|].
  apply (proj2 (proj2 (review_lowers_pending 2000%Z 8 "resolved"
        Samples.refreshed_after_resolution
                         Samples.dashboard_db Samples.dashboard [] [] B))).
  exists Samples.pending_alert. split; [right; left; reflexivity|].
  split; reflexivity.
Defined.

End AdminExtras.

(** ** The camera *)

Module CameraExtras.

Import Camera.

Lemma step_keeps_references toDataURL e st :
  video_srcObject st = streamRef st /\
  (useCamera st = false -> streamRef st = None) ->
  video_srcObject (step toDataURL e st) = streamRef (step toDataURL e st) /\
  (useCamera (step toDataURL e st) = false ->
   streamRef (step toDataURL e st) = None).
Proof.
  intros [E N]. destruct st as [u c r v l f]. cbn in E, N. subst v.
  destruct e; cbn.
  - destruct u; cbn; [split; [reflexivity|discriminate]|].
    rewrite (N eq_refl). split; [reflexivity|discriminate].
  - split; [reflexivity|exact N].
  - destruct r; cbn; split; reflexivity.
  - destruct u; cbn; [|split; [reflexivity|exact N]].
    destruct r; cbn; split; reflexivity.
  - split; [reflexivity|exact N].
  - split; [reflexivity|exact N].
Qed.

Lemma run_keeps_references toDataURL events :
  video_srcObject (run toDataURL events) = streamRef (run toDataURL events) /\
  (useCamera (run toDataURL events) = false ->
   streamRef (run toDataURL events) = None).
Proof.
  unfold run.
  assert (G : forall st,
             video_srcObject st = streamRef st /\
             (useCamera st = false -> streamRef st = None) ->
             video_srcObject (fold_left (fun s e => step toDataURL e s) events st)
             = streamRef (fold_left (fun s e => step toDataURL e s) events st) /\
             (useCamera (fold_left (fun s e => step toDataURL e s) events st)
              = false ->
              streamRef (fold_left (fun s e => step toDataURL e s) events st)
              = None)).
  { induction events as [|e events IH]; intros st I; [exact I|].
    cbn [fold_left]. apply IH. apply step_keeps_references. exact I. }
  apply G. split; reflexivity.
Qed.


(** X22.  The camera opened with the 'Use Camera' button is never shown
    nor released.  In any state in which the button is on the screen, once
    the camera is granted the panel opens, but the stream is given neither
    to the video element, which is not on the screen yet, nor to
    [streamRef]; so the stream is still running after Cancel and after
    'Capture Photo', and the photograph captured is taken from a video
    element without a source. *)
Theorem granted_stream_is_lost :
  forall toDataURL events stream,
    use_camera_button_shown (run toDataURL events) = true ->
    useCamera (step toDataURL (Granted stream) (run toDataURL events)) = true /\
    video_srcObject (step toDataURL (Granted stream) (run toDataURL events))
    = None /\
    streamRef (step toDataURL (Granted stream) (run toDataURL events)) = None /\
    In stream
       (running (step toDataURL Cancel
                   (step toDataURL (Granted stream) (run toDataURL events)))) /\
    In stream
       (running (step toDataURL CapturePhoto
                   (step toDataURL (Granted stream) (run toDataURL events)))) /\
    capturedImage (step toDataURL CapturePhoto
                     (step toDataURL (Granted stream) (run toDataURL events)))
    = Some (toDataURL None).
Proof.
  intros toDataURL events stream H.
  destruct (run_keeps_references toDataURL events) as [E N].
  unfold use_camera_button_shown in H. apply andb_true_iff in H.
  destruct H as [_ H]. apply negb_true_iff in H. specialize (N H).
  destruct (run toDataURL events) as [u c r v l f].
  cbn in E, N, H. subst u r v. cbn. repeat split; left; reflexivity.
Qed.

Lemma granted_stream_is_lost_witness :
  use_camera_button_shown (run MoreSamples.toDataURL [FileRead "x"; Retake])
  = true /\
  In 5 (running (step MoreSamples.toDataURL Cancel
                   (step MoreSamples.toDataURL (Granted 5)
                      (run MoreSamples.toDataURL [FileRead "x"; Retake])))).
Proof.
  split; [reflexivity|].
  destruct (granted_stream_is_lost MoreSamples.toDataURL
              [FileRead "x"; Retake] 5 eq_refl) as (_ & _ & _ & H & _).
  exact H.
Defined.

End CameraExtras.

(** ** The seed rows of the migration *)

Module MigrationExtras.

Import Schema Migration.

Lemma shop_code_taken_true tbl c :
  shop_code_taken tbl c = true <-> In c (map ration_shops.shop_code tbl).
Proof.
  unfold shop_code_taken. rewrite existsb_exists, in_map_iff.
  split; intros (r & H1 & H2).
  - exists r. apply String.eqb_eq in H2. auto.
  - exists r. split; [exact H2|]. apply String.eqb_eq. exact H1.
Qed.

Lemma insert_shop_grows now tbl v :
  exists added, insert_shop now tbl v = tbl ++ added.
Proof.
  unfold insert_shop. destruct (shop_code_taken tbl (v_shop_code v)).
  - exists []. symmetry. apply app_nil_r.
  - eexists. reflexivity.
Qed.

Lemma insert_shop_takes now tbl v :
  shop_code_taken (insert_shop now tbl v) (v_shop_code v) = true.
Proof.
  unfold insert_shop.
  destruct (shop_code_taken tbl (v_shop_code v)) eqn:T; [exact T|].
  apply shop_code_taken_true. rewrite map_app. apply in_or_app.
  right. left. reflexivity.
Qed.

Lemma insert_shop_unique now tbl v :
  unique_shop_codes tbl -> unique_shop_codes (insert_shop now tbl v).
Proof.
  unfold unique_shop_codes, insert_shop. intros U.
  destruct (shop_code_taken tbl (v_shop_code v)) eqn:T; [exact U|].
  rewrite map_app. apply NoDup_app; [exact U| |].
  - constructor; [intros []|constructor].
  - intros x Hx [<-|[]].
    apply shop_code_taken_true in Hx. cbn in Hx. congruence.
Qed.

Lemma insert_shops_grows now values tbl :
  exists added, insert_shops now values tbl = tbl ++ added.
Proof.
  unfold insert_shops. revert tbl.
  induction values as [|v values IH]; intros tbl; cbn [fold_left].
  - exists []. symmetry. apply app_nil_r.
  - destruct (insert_shop_grows now tbl v) as (a1 & E1).
    destruct (IH (insert_shop now tbl v)) as (a2 & E2).
    exists (a1 ++ a2). rewrite E2, E1. symmetry. apply app_assoc.
Qed.

Lemma insert_shops_unique now values tbl :
  unique_shop_codes tbl -> unique_shop_codes (insert_shops now values tbl).
Proof.
  unfold insert_shops. revert tbl.
  induction values as [|v values IH]; intros tbl U; cbn [fold_left];
    [exact U|].
  apply IH. apply insert_shop_unique. exact U.
Qed.

Lemma insert_shops_keeps_taken now values tbl c :
  shop_code_taken tbl c = true ->
  shop_code_taken (insert_shops now values tbl) c = true.
Proof.
  intros T. destruct (insert_shops_grows now values tbl) as (added & E).
  rewrite E. apply shop_code_taken_true. rewrite map_app.
  apply in_or_app. left. apply shop_code_taken_true. exact T.
Qed.

Lemma insert_shops_takes now values tbl v :
  In v values ->
  shop_code_taken (insert_shops now values tbl) (v_shop_code v) = true.
Proof.
  unfold insert_shops. revert tbl.
  induction values as [|w values IH]; intros tbl H; [contradiction|].
  cbn [fold_left]. destruct H as [->|H].
  - apply (insert_shops_keeps_taken now values). apply insert_shop_takes.
  - apply IH. exact H.
Qed.

Lemma insert_shops_all_taken now values tbl :
  (forall v, In v values -> shop_code_taken tbl (v_shop_code v) = true) ->
  insert_shops now values tbl = tbl.
Proof.
  unfold insert_shops. revert tbl.
  induction values as [|v values IH]; intros tbl H; [reflexivity|].
  cbn [fold_left]. unfold insert_shop at 2.
  rewrite (H v (or_introl eq_refl)). apply IH.
  intros w Hw. apply H. right. exact Hw.
Qed.

(** X23.  Running the seed statements of the migration again: the insert
    into [ration_shops], which names [shop_code] as its conflict target,
    keeps the rows that were there, keeps the shop codes distinct, makes
    the three sample codes present, and adds nothing the second time; the
    insert into [distribution_cycles], a table without a unique column
    other than [id], adds one more active cycle at every run. *)
Theorem seeds_run_again :
  forall now now' shops cycles,
    unique_shop_codes shops ->
    (exists added, seed_shops now shops = shops ++ added) /\
    unique_shop_codes (seed_shops now shops) /\
    (forall v, In v sample_shops ->
               shop_code_taken (seed_shops now shops) (v_shop_code v) = true) /\
    seed_shops now' (seed_shops now shops) = seed_shops now shops /\
    active_cycles (seed_cycles now' (seed_cycles now cycles))
    = 2 + active_cycles cycles.
Proof.
  intros now now' shops cycles U. unfold seed_shops.
  split; [apply insert_shops_grows|].
  split; [apply insert_shops_unique; exact U|].
  split; [intros v Hv; apply insert_shops_takes; exact Hv|].
  split.
  - apply insert_shops_all_taken. intros v Hv.
    apply insert_shops_takes. exact Hv.
  - unfold active_cycles, seed_cycles. rewrite !filter_app, !length_app.
    cbn. lia.
Qed.

Lemma seeds_run_again_witness :
  unique_shop_codes [] /\
  seed_shops 20%Z (seed_shops 10%Z []) = seed_shops 10%Z [] /\
  active_cycles (seed_cycles 20%Z (seed_cycles 10%Z [])) = 2.
Proof.
  assert (U : unique_shop_codes []) by constructor.
  split; [exact U|].
  destruct (seeds_run_again 10%Z 20%Z [] [] U) as (_ & _ & _ & H1 & H2).
  split; [exact H1|exact H2].
Defined.

End MigrationExtras.

(** ** From the registration form to the list *)

Module RegisteredAndListed.

Import Schema BeneficiaryList.

Lemma append_empty (s : string) : (s ++ EmptyString)%string = s.
Proof.
  induction s as [|c s IH]; simpl; [reflexivity|]. rewrite IH. reflexivity.
Qed.

(** X24.  A beneficiary just registered is found in the list.  After a
    registration that succeeded, when the list query answers with every row
    of the table exactly once, in whatever order, [loadBeneficiaries] holds
    that answer, and typing the card number of the form into the search box
    shows the row registered, with the captured image as its face
    embedding.  When the query fails the
    list is left as it was; in both cases the loading state ends. *)
Theorem registered_then_listed :
  forall toLowerCase pg_message now db st img lst e data,
    Registration.valid st img ->
    beneficiaries.card_number_taken db
      (Registration.card_number (Registration.formData st)) = false ->
    Permutation data
      (fst (Registration.handleSubmit pg_message now (fun x => x) db st)) ->
    beneficiaries (loadBeneficiaries (inr data) lst) = data /\
    (exists row,
        In row
           (filteredBeneficiaries toLowerCase
              (setSearchTerm
                 (Registration.card_number (Registration.formData st))
                 (loadBeneficiaries (inr data) lst))) /\
        beneficiaries.card_number row
        = Registration.card_number (Registration.formData st) /\
        beneficiaries.face_embedding row = Some img) /\
    loading (loadBeneficiaries (inr data) lst) = false /\
    beneficiaries (loadBeneficiaries (inl e) lst) = beneficiaries lst /\
    loading (loadBeneficiaries (inl e) lst) = false.
Proof.
  intros toLowerCase pg_message now db st img lst e data V T P.
  rewrite (RegistrationExtras.handleSubmit_succeeds pg_message now
             (fun x => x) db st img V T T) in P.
  cbn [fst] in P.
  cbn [loadBeneficiaries beneficiaries loading].
  split; [reflexivity|]. split; [|repeat split].
  exists (beneficiaries.mk
            (fresh_uuid (map beneficiaries.id db))
            (Registration.card_number (Registration.formData st))
            (Registration.name (Registration.formData st))
            (Some (Registration.phone (Registration.formData st)))
            (Some (Registration.address (Registration.formData st)))
            (Some (Registration.truncated_image img)) (Some img)
            (Some "active") now now).
  split; [|split; reflexivity].
  apply BeneficiaryListExtras.search_fragment_In.
  cbn [setSearchTerm beneficiaries searchTerm]. split.
  - apply (Permutation_in _ (Permutation_sym P)).
    apply in_or_app. right. left. reflexivity.
  - right. exists EmptyString, EmptyString.
    cbn [beneficiaries.card_number]. rewrite append_empty. reflexivity.
Qed.

Lemma registered_then_listed_witness :
  Registration.valid Samples.submitted Samples.image /\
  exists row,
    In row
       (filteredBeneficiaries (fun s => s)
          (setSearchTerm "BPL001"
             (loadBeneficiaries
                (inr (fst (Registration.handleSubmit Samples.pg_message 200%Z
                             (fun x => x) [] Samples.submitted)))
                (mkState [] true EmptyString)))) /\
    beneficiaries.face_embedding row = Some Samples.image.
Proof.
  assert (V : Registration.valid Samples.submitted Samples.image)
    by (repeat split; discriminate).
  split; [exact V|].
  destruct (registered_then_listed (fun s => s) Samples.pg_message 200%Z []
              Samples.submitted Samples.image (mkState [] true EmptyString)
              (unique_violation "none")
              (fst (Registration.handleSubmit Samples.pg_message 200%Z
                      (fun x => x) [] Samples.submitted))
              V eq_refl (Permutation_refl _))
    as (_ & (row & H1 & _ & H2) & _).
  exists row. split; [exact H1|exact H2].
Defined.

End RegisteredAndListed.
